(** * Antora support of the AsciiDoc extension: a shallow embedding

    The development follows the Antora support module of the extension:
    the configuration locator ([getAntoraConfig]), the configuration
    parser ([parseAntoraConfig], [getAttributes]), the catalog builder
    ([getActiveAntoraConfig], [createPlaybook], [getContentCatalog]), the
    resolvers ([getSrc], [resolveAntoraResourceIds]) and the opt-in gate
    of [AntoraSupportManager].

    JavaScript strings are modelled by [string] (one [ascii] per code
    unit), dynamically typed values by [value], functions that log,
    allocate or throw by the monad [M], whose state holds the console and
    the stamp of the next object literal.  Inside the functions of the
    module an [await] is sequenced in program order.  The listener of the
    opt-in gate is given twice: await by await ([Live], [live_step]),
    where documents opened while a run is suspended start runs of their
    own, and by sessions ([Session], [step]), the runs of [Live] in which
    no document is opened while a run searches or writes.  Paths are POSIX
    paths. *)

From Stdlib Require Import String Ascii List Bool Arith Lia ZArith DecimalString
  Permutation.
Import ListNotations.

Local Open Scope list_scope.
Local Open Scope string_scope.

Set Warnings "-register-all".

(* ================================================================== *)
(** * Part I: the embedding *)

(** ** Strings *)

Module Str.

(** [s.startsWith(p)] *)
Definition startsWith (s p : string) : bool := String.prefix p s.

(** [s.slice(n)] for [0 <= n]: the suffix from index [n], empty past the
    end. *)
Fixpoint slice (s : string) (n : nat) : string :=
  match n, s with
  | 0, _ => s
  | S _, EmptyString => EmptyString
  | S m, String _ s' => slice s' m
  end.

(** [s.slice(0, n)] *)
Definition take (s : string) (n : nat) : string := String.substring 0 n s.

(** The first code unit of [s] is [c]. *)
Definition first_is (c : ascii) (s : string) : bool :=
  match s with
  | EmptyString => false
  | String d _ => Ascii.eqb d c
  end.

(** The last code unit of [s] is [c]. *)
Fixpoint last_is (c : ascii) (s : string) : bool :=
  match s with
  | EmptyString => false
  | String d EmptyString => Ascii.eqb d c
  | String _ s' => last_is c s'
  end.

(** No occurrence of the code unit [c] in [s]. *)
Fixpoint lacks (c : ascii) (s : string) : bool :=
  match s with
  | EmptyString => true
  | String d s' => negb (Ascii.eqb d c) && lacks c s'
  end.

(** The code units of [s] in reverse order. *)
Fixpoint rev_units (s : string) (acc : list ascii) : list ascii :=
  match s with
  | EmptyString => acc
  | String c s' => rev_units s' (c :: acc)
  end.

End Str.

(** ** Regular expressions

    The fragment of JavaScript [RegExp] used by the locator: literals,
    the negated class [[^c]], [.], concatenation, alternation, [*] and
    [+].  A pattern anchored by [^] and tested with
    [String.prototype.match] succeeds iff some prefix of the subject
    belongs to the language of the pattern. *)

Module Regex.

Inductive regex : Type :=
| Nothing                      (* no string at all *)
| Empty                        (* the empty string *)
| Char (c : ascii)             (* a literal code unit *)
| NotChar (c : ascii)          (* [^c] *)
| Dot                          (* . : any unit but a line terminator *)
| Seq (r1 r2 : regex)
| Alt (r1 r2 : regex)          (* r1|r2 *)
| Star (r : regex).

Definition Plus (r : regex) : regex := Seq r (Star r).

Fixpoint Lit (s : string) : regex :=
  match s with
  | EmptyString => Empty
  | String c s' => Seq (Char c) (Lit s')
  end.

(** Line terminators representable in one byte: LF and CR. *)
Definition line_terminator (c : ascii) : bool :=
  Ascii.eqb c "010"%char || Ascii.eqb c "013"%char.

Fixpoint nullable (r : regex) : bool :=
  match r with
  | Nothing | Char _ | NotChar _ | Dot => false
  | Empty | Star _ => true
  | Seq r1 r2 => nullable r1 && nullable r2
  | Alt r1 r2 => nullable r1 || nullable r2
  end.

(** Brzozowski derivative with respect to one code unit. *)
Fixpoint deriv (c : ascii) (r : regex) : regex :=
  match r with
  | Nothing | Empty => Nothing
  | Char d => if Ascii.eqb c d then Empty else Nothing
  | NotChar d => if Ascii.eqb c d then Nothing else Empty
  | Dot => if line_terminator c then Nothing else Empty
  | Seq r1 r2 =>
      if nullable r1
      then Alt (Seq (deriv c r1) r2) (deriv c r2)
      else Seq (deriv c r1) r2
  | Alt r1 r2 => Alt (deriv c r1) (deriv c r2)
  | Star r1 => Seq (deriv c r1) (Star r1)
  end.

(** [s.match(/^r/)] is not null: some prefix of [s] is matched by [r]. *)
Fixpoint matches (r : regex) (s : string) : bool :=
  nullable r ||
  match s with
  | EmptyString => false
  | String c s' => matches (deriv c r) s'
  end.

(** The language of a pattern. *)
Inductive lang : regex -> string -> Prop :=
| LEmpty : lang Empty ""
| LChar c : lang (Char c) (String c "")
| LNotChar c d : d <> c -> lang (NotChar c) (String d "")
| LDot d : line_terminator d = false -> lang Dot (String d "")
| LSeq r1 r2 s1 s2 : lang r1 s1 -> lang r2 s2 -> lang (Seq r1 r2) (s1 ++ s2)
| LAltL r1 r2 s : lang r1 s -> lang (Alt r1 r2) s
| LAltR r1 r2 s : lang r2 s -> lang (Alt r1 r2) s
| LStar0 r : lang (Star r) ""
| LStarS r s1 s2 : lang r s1 -> lang (Star r) s2 -> lang (Star r) (s1 ++ s2).

End Regex.

(** ** Node's [path] module, POSIX flavour

    [dirname] follows Node's scan from the end of the path; [normalize],
    [join] and [relative] are given on the segments between separators,
    which is what Node's character loop computes. *)

Module Path.

Definition sep : ascii := "/"%char.

(** [s.split("/")] *)
Fixpoint split (s : string) : list string :=
  match s with
  | EmptyString => [EmptyString]
  | String c s' =>
      if Ascii.eqb c sep then EmptyString :: split s'
      else match split s' with
           | [] => [String c EmptyString]
           | seg :: segs => String c seg :: segs
           end
  end.

Definition isAbsolute (p : string) : bool := Str.first_is sep p.

(** The loop of [dirname]: [units] holds the code units at the indices
    [i, i-1, ..., 1]; the result is the index [end], if one is found. *)
Fixpoint dirname_scan (units : list ascii) (i : nat) (matchedSlash : bool)
  : option nat :=
  match units with
  | [] => None
  | c :: rest =>
      if Ascii.eqb c sep then
        if matchedSlash then dirname_scan rest (i - 1) true else Some i
      else dirname_scan rest (i - 1) false
  end.

Definition dirname (p : string) : string :=
  match p with
  | EmptyString => "."
  | String c0 tl =>
      let hasRoot := Ascii.eqb c0 sep in
      match dirname_scan (Str.rev_units tl []) (String.length p - 1) true with
      | None => if hasRoot then "/" else "."
      | Some e => if hasRoot && Nat.eqb e 1 then "//" else Str.take p e
      end
  end.

(** One step of [normalizeString]: [stack] holds the segments kept so
    far, innermost first. *)
Definition normalize_step (allowAboveRoot : bool) (stack : list string)
  (seg : string) : list string :=
  if (seg =? "")%string || (seg =? ".")%string then stack
  else if (seg =? "..")%string then
    match stack with
    | top :: below =>
        if (top =? "..")%string
        then (if allowAboveRoot then seg :: stack else stack)
        else below
    | [] => if allowAboveRoot then [seg] else []
    end
  else seg :: stack.

Definition normalize_segments (allowAboveRoot : bool) (segs : list string)
  : list string :=
  rev (fold_left (normalize_step allowAboveRoot) segs []).

Definition normalize (p : string) : string :=
  match p with
  | EmptyString => "."
  | _ =>
      let isAbs := isAbsolute p in
      let trailingSeparator := Str.last_is sep p in
      let res := String.concat "/" (normalize_segments (negb isAbs) (split p)) in
      match res with
      | EmptyString => if isAbs then "/" else if trailingSeparator then "./" else "."
      | _ =>
          let res' := if trailingSeparator then res ++ "/" else res in
          if isAbs then "/" ++ res' else res'
      end
  end.

(** [path.join(a, b)] *)
Definition join (a b : string) : string :=
  match a, b with
  | EmptyString, EmptyString => "."
  | EmptyString, _ => normalize b
  | _, EmptyString => normalize a
  | _, _ => normalize (a ++ "/" ++ b)
  end.

(** The segments of [path.resolve(p)] in a process whose working
    directory is [cwd]. *)
Definition resolve_segments (cwd p : string) : list string :=
  normalize_segments false (split (if isAbsolute p then p else cwd ++ "/" ++ p)).

Fixpoint strip_common (a b : list string) : list string * list string :=
  match a, b with
  | x :: a', y :: b' => if (x =? y)%string then strip_common a' b' else (a, b)
  | _, _ => (a, b)
  end.

(** [path.relative(from, to)] *)
Definition relative (cwd from to : string) : string :=
  let (up, down) := strip_common (resolve_segments cwd from) (resolve_segments cwd to) in
  String.concat "/" (map (fun _ => "..") up ++ down)%list.

(** A file or directory name: not empty, without separator, and neither
    of the two dot entries. *)
Definition is_name (s : string) : bool :=
  Str.lacks sep s
  && negb (s =? "")%string && negb (s =? ".")%string && negb (s =? "..")%string.

(** The absolute path [/n1/n2/.../nk] of a list of names. *)
Fixpoint absolute (names : list string) : string :=
  match names with
  | [] => EmptyString
  | n :: rest => String sep (n ++ absolute rest)
  end.

End Path.

(** ** JavaScript values, errors and effects *)

(** Values as the program sees them.  An object carries the stamp it was
    allocated with: [===] on objects compares stamps, never contents.
    Numbers are integral; the fragment does no arithmetic on them. *)
Inductive value : Type :=
| VUndefined
| VNull
| VBool (b : bool)
| VNum (n : Z)
| VStr (s : string)
| VObj (stamp : nat) (props : list (string * value)).

(** What [yaml.load] builds, before it is allocated. *)
Inductive data : Type :=
| DUndefined
| DNull
| DBool (b : bool)
| DNum (n : Z)
| DStr (s : string)
| DMap (entries : list (string * data))
| DSeq (items : list data).

Inductive error : Type :=
| TypeError (message : string)
| AntoraDisabledError (message : string)
| OtherError (name message : string).

(** [e instanceof AntoraDisabledError] *)
Definition instanceof_AntoraDisabledError (e : error) : bool :=
  match e with
  | AntoraDisabledError _ => true
  | _ => false
  end.

Definition error_name (e : error) : string :=
  match e with
  | TypeError _ => "TypeError"
  | AntoraDisabledError _ => "Error"
  | OtherError n _ => n
  end.

Definition error_message (e : error) : string :=
  match e with
  | TypeError m | AntoraDisabledError m | OtherError _ m => m
  end.

(** [Error.prototype.toString] *)
Definition error_toString (e : error) : string :=
  let n := error_name e in
  let m := error_message e in
  if (n =? "")%string then m
  else if (m =? "")%string then n
  else n ++ ": " ++ m.

Inductive outcome (A : Type) : Type :=
| Returned (a : A)
| Thrown (e : error).
Arguments Returned {A} a.
Arguments Thrown {A} e.

(** The part of the world the fragment writes to. *)
Record world : Type := World {
  console : list string;    (* lines written by console.log, oldest first *)
  next_stamp : nat          (* stamp of the next object literal *)
}.

Definition M (A : Type) : Type := world -> outcome A * world.

Definition ret {A} (a : A) : M A := fun w => (Returned a, w).

Definition throw {A} (e : error) : M A := fun w => (Thrown e, w).

Definition bind {A B} (m : M A) (k : A -> M B) : M B :=
  fun w =>
    match m w with
    | (Returned a, w') => k a w'
    | (Thrown e, w') => (Thrown e, w')
    end.

(** [try { body } catch (e) { handler }] *)
Definition try_catch {A} (body : M A) (handler : error -> M A) : M A :=
  fun w =>
    match body w with
    | (Returned a, w') => (Returned a, w')
    | (Thrown e, w') => handler e w'
    end.

Definition lift {A} (r : outcome A) : M A := fun w => (r, w).

(** [console.log(line)] *)
Definition console_log (line : string) : M unit :=
  fun w => (Returned tt, World (console w ++ [line])%list (next_stamp w)).

(** An object literal [{ k1: v1, ... }]. *)
Definition object_literal (props : list (string * value)) : M value :=
  fun w => (Returned (VObj (next_stamp w) props),
            World (console w) (S (next_stamp w))).

Declare Scope js_scope.
Delimit Scope js_scope with js.
Notation "x <- m ;; k" := (bind m (fun x => k))
  (at level 61, m at next level, right associativity) : js_scope.
Notation "m ;;; k" := (bind m (fun _ => k))
  (at level 61, right associativity) : js_scope.
Local Open Scope js_scope.

Fixpoint lookup (k : string) (props : list (string * value)) : value :=
  match props with
  | [] => VUndefined
  | (k', v) :: rest => if (k' =? k)%string then v else lookup k rest
  end.

(** Reading the property [k] of [v].  None of the names read by the
    fragment is defined on the wrapper of a primitive or on
    [Object.prototype], so only own properties of objects are found. *)
Definition get (v : value) (k : string) : M value :=
  match v with
  | VUndefined =>
      throw (TypeError ("Cannot read properties of undefined (reading '" ++ k ++ "')"))
  | VNull =>
      throw (TypeError ("Cannot read properties of null (reading '" ++ k ++ "')"))
  | VObj _ props => ret (lookup k props)
  | VBool _ | VNum _ | VStr _ => ret VUndefined
  end.

(** [a === b] *)
Definition strict_eq (a b : value) : bool :=
  match a, b with
  | VUndefined, VUndefined => true
  | VNull, VNull => true
  | VBool x, VBool y => Bool.eqb x y
  | VNum x, VNum y => Z.eqb x y
  | VStr x, VStr y => (x =? y)%string
  | VObj i _, VObj j _ => Nat.eqb i j
  | _, _ => false
  end.

(** Allocation of a parsed document: the entries first, then the object
    that holds them. *)
Fixpoint instantiate (d : data) (n : nat) {struct d} : value * nat :=
  match d with
  | DUndefined => (VUndefined, n)
  | DNull => (VNull, n)
  | DBool b => (VBool b, n)
  | DNum z => (VNum z, n)
  | DStr s => (VStr s, n)
  | DMap entries =>
      let fix go (es : list (string * data)) (n : nat)
        : list (string * value) * nat :=
        match es with
        | [] => ([], n)
        | (k, d') :: es' =>
            let (v, n1) := instantiate d' n in
            let (vs, n2) := go es' n1 in
            ((k, v) :: vs, n2)
        end in
      let (props, n') := go entries n in
      (VObj n' props, S n')
  | DSeq items =>
      let fix go (ds : list data) (i : nat) (n : nat)
        : list (string * value) * nat :=
        match ds with
        | [] => ([], n)
        | d' :: ds' =>
            let (v, n1) := instantiate d' n in
            let (vs, n2) := go ds' (S i) n1 in
            ((NilZero.string_of_uint (Nat.to_uint i), v) :: vs, n2)
        end in
      let (props, n') := go items 0 n in
      (VObj n' props, S n')
  end.

Definition allocate (d : data) : M value :=
  fun w =>
    let (v, n) := instantiate d (next_stamp w) in
    (Returned v, World (console w) n).

(** ** The host: editor, file system and Antora libraries *)

(** [vscode.Uri], reduced to the two views the fragment reads. *)
Record Uri : Type := mkUri {
  path : string;
  fsPath : string
}.

(** [%XX] for the byte [n]. *)
Definition hex_digit (n : nat) : ascii :=
  ascii_of_nat (if (n <? 10)%nat then 48 + n else 55 + n).

Definition percent (n : nat) : string :=
  String "%" (String (hex_digit (n / 16)) (String (hex_digit (n mod 16)) "")).

(** The code units a path keeps as they are in [uri.toString()]: letters,
    digits, [-], [.], [_], [~] and [/]. *)
Definition unreserved_in_path (c : ascii) : bool :=
  let n := nat_of_ascii c in
  ((97 <=? n)%nat && (n <=? 122)%nat) || ((65 <=? n)%nat && (n <=? 90)%nat)
  || ((48 <=? n)%nat && (n <=? 57)%nat)
  || (n =? 45)%nat || (n =? 46)%nat || (n =? 95)%nat || (n =? 126)%nat
  || (n =? 47)%nat.

(** Every other unit is percent-encoded, by its UTF-8 bytes. *)
Definition encode_unit (c : ascii) : string :=
  if unreserved_in_path c then String c ""
  else
    let n := nat_of_ascii c in
    if (n <? 128)%nat then percent n
    else percent (192 + n / 64) ++ percent (128 + n mod 64).

Fixpoint encode_path (p : string) : string :=
  match p with
  | EmptyString => EmptyString
  | String c p' => encode_unit c ++ encode_path p'
  end.

Definition is_upper (c : ascii) : bool :=
  (65 <=? nat_of_ascii c)%nat && (nat_of_ascii c <=? 90)%nat.

Definition to_lower (c : ascii) : ascii := ascii_of_nat (nat_of_ascii c + 32).

(** The drive letter of [/C:/...] and [C:/...] is written in lower
    case. *)
Definition lower_drive (p : string) : string :=
  match p with
  | String a (String b rest) =>
      match rest with
      | String c rest' =>
          if Ascii.eqb a "/" && Ascii.eqb c ":" then
            if is_upper b then String a (String (to_lower b) rest) else p
          else if Ascii.eqb b ":" then
            if is_upper a then String (to_lower a) (String b rest) else p
          else p
      | EmptyString =>
          if Ascii.eqb b ":" then
            if is_upper a then String (to_lower a) (String b rest) else p
          else p
      end
  | _ => p
  end.

(** [uri.toString()] of a file without authority. *)
Definition Uri_toString (u : Uri) : string :=
  "file://" ++ encode_path (lower_drive (path u)).

Record WorkspaceFolder : Type := mkWorkspaceFolder {
  uri : Uri
}.

(** The persisted opt-in state: the workspace-state key
    ['antoraSupportSetting'] and the setting
    ['asciidoc.antora.enableAntoraSupport']. *)
Record Settings : Type := mkSettings {
  antoraSupportSetting : value;
  enableAntoraSupport : value
}.

(** One entry of [content.sources]. *)
Record ContentSource : Type := mkContentSource {
  url : string;
  branches : string;
  startPath : string
}.

Record Playbook : Type := mkPlaybook {
  content_sources : list ContentSource;
  runtime : list (string * value);
  site : list (string * value)
}.

(** The context argument of [resolveResource]. *)
Record ResourceContext : Type := mkResourceContext {
  ctx_component : value;
  ctx_version : value;
  ctx_module : value
}.

(** The key argument of [getByPath]. *)
Record PathKey : Type := mkPathKey {
  key_component : value;
  key_version : value;
  key_path : string
}.

(** [ContentCatalog], by the two queries the fragment sends. *)
Record ContentCatalog : Type := mkContentCatalog {
  getByPath : PathKey -> outcome value;
  resolveResource :
    string -> ResourceContext -> string -> list string -> outcome value
}.

(** What [aggregateContent] hands to [classifyContent]. *)
Record ContentAggregate : Type := mkContentAggregate {
  aggregate_files : list string
}.

Record Host : Type := mkHost {
  (* vscode.workspace.findFiles('**/antora.yml', '/node_modules/', 100, token) *)
  findFiles : list Uri;
  (* fs.readFileSync(path, 'utf8') *)
  readFileSync : string -> outcome string;
  (* yaml.load(text) *)
  yaml_load : string -> outcome data;
  (* workspaceState and workspace configuration *)
  settings : Settings;
  (* vscode.workspace.getWorkspaceFolder(uri) *)
  getWorkspaceFolder : Uri -> option WorkspaceFolder;
  (* @antora/content-aggregator, awaited, and @antora/content-classifier,
     which answers synchronously *)
  aggregateContent : Playbook -> outcome ContentAggregate;
  classifyContent : Playbook -> ContentAggregate -> outcome ContentCatalog;
  (* process.cwd() *)
  cwd : string
}.

(** ** The fragment *)

(** [/^\/[^/]+\/pages\/.*/] *)
Definition pages_pattern : Regex.regex :=
  Regex.Seq (Regex.Char "/")
    (Regex.Seq (Regex.Plus (Regex.NotChar "/"))
       (Regex.Seq (Regex.Lit "/pages/") (Regex.Star Regex.Dot))).

(** The test of the loop of [getAntoraConfig]. *)
Definition applicable (pathToAsciidocFile : string) (antoraConfig : Uri) : bool :=
  let modulesPath := Path.join (Path.dirname (path antoraConfig)) "modules" in
  Str.startsWith pathToAsciidocFile modulesPath
  && Regex.matches pages_pattern
       (Str.slice pathToAsciidocFile (String.length modulesPath)).

Fixpoint getAntoraConfig_loop (pathToAsciidocFile : string)
  (antoraConfigs : list Uri) : M (option Uri) :=
  match antoraConfigs with
  | [] => ret None
  | antoraConfig :: rest =>
      if applicable pathToAsciidocFile antoraConfig then
        console_log ("Found an Antora configuration file at " ++ fsPath antoraConfig
                     ++ " for the AsciiDoc document " ++ pathToAsciidocFile) ;;;
        ret (Some antoraConfig)
      else getAntoraConfig_loop pathToAsciidocFile rest
  end.

(** The cancellation token of the search is never triggered by the
    fragment, so its listener never logs. *)
Definition getAntoraConfig (h : Host) (textDocumentUri : Uri) : M (option Uri) :=
  let pathToAsciidocFile := fsPath textDocumentUri in
  let antoraConfigs := findFiles h in
  found <- getAntoraConfig_loop pathToAsciidocFile antoraConfigs ;;
  match found with
  | Some antoraConfig => ret (Some antoraConfig)
  | None =>
      console_log ("Unable to find an applicable Antora configuration file in ["
                   ++ String.concat ", " (map Uri_toString antoraConfigs)
                   ++ "] for the AsciiDoc document " ++ pathToAsciidocFile) ;;;
      ret None
  end.

Definition antoraConfigExists (h : Host) (textDocumentUri : Uri) : M bool :=
  found <- getAntoraConfig h textDocumentUri ;;
  ret (match found with Some _ => true | None => false end).

Definition parseAntoraConfig (h : Host) (textDocumentUri : Uri) : M value :=
  antoraConfigUri <- getAntoraConfig h textDocumentUri ;;
  match antoraConfigUri with
  | Some u =>
      let antoraConfigPath := fsPath u in
      try_catch
        (text <- lift (readFileSync h antoraConfigPath) ;;
         parsed <- lift (yaml_load h text) ;;
         allocate parsed)
        (fun err =>
           console_log ("Unable to parse " ++ antoraConfigPath ++ ", cause:"
                        ++ error_toString err) ;;;
           object_literal [])
  | None => object_literal []
  end.

Definition getAttributes (h : Host) (textDocumentUri : Uri) : M value :=
  doc <- parseAntoraConfig h textDocumentUri ;;
  empty <- object_literal [] ;;
  if negb (strict_eq doc empty) then
    asciidoc <- get doc "asciidoc" ;;
    get asciidoc "attributes"
  else object_literal [].

Definition getActiveAntoraConfig (h : Host) (textDocumentUri : Uri)
  : M (option Uri) :=
  let isEnableAntoraSupportSettingDefined := antoraSupportSetting (settings h) in
  if strict_eq isEnableAntoraSupportSettingDefined (VBool true) then
    let enableAntoraSupport := enableAntoraSupport (settings h) in
    if strict_eq enableAntoraSupport (VBool true) then
      getAntoraConfig h textDocumentUri
    else ret None
  else ret None.

Definition createPlaybook (h : Host) (textDocumentUri : Uri)
  : M (option Playbook) :=
  activeAntoraConfig <- getActiveAntoraConfig h textDocumentUri ;;
  match activeAntoraConfig with
  | None => ret None
  | Some config =>
      let contentSourceRootPath := Path.dirname (fsPath config) in
      match getWorkspaceFolder h config with
      | None =>
          throw (TypeError "Cannot read properties of undefined (reading 'uri')")
      | Some folder =>
          let contentSourceRepositoryRootPath := fsPath (uri folder) in
          let startPath :=
            Path.relative (cwd h) contentSourceRepositoryRootPath
              contentSourceRootPath in
          ret (Some (mkPlaybook
                       [mkContentSource contentSourceRepositoryRootPath "HEAD"
                          startPath]
                       [] []))
      end
  end.

(** The body of the [try] block of [getContentCatalog]. *)
Definition getContentCatalog_try (h : Host) (textDocumentUri : Uri)
  : M (option ContentCatalog) :=
  playbook <- createPlaybook h textDocumentUri ;;
  match playbook with
  | Some pb =>
      contentAggregate <- lift (aggregateContent h pb) ;;
      catalog <- lift (classifyContent h pb contentAggregate) ;;
      ret (Some catalog)
  | None => ret None
  end.

(** The [catch] clause of [getContentCatalog]. *)
Definition getContentCatalog_catch (e : error) : M (option ContentCatalog) :=
  if instanceof_AntoraDisabledError e then ret None
  else
    console_log ("Unable to create contentCatalog : " ++ error_toString e) ;;;
    throw e.

Definition getContentCatalog (h : Host) (textDocumentUri : Uri)
  : M (option ContentCatalog) :=
  try_catch (getContentCatalog_try h textDocumentUri) getContentCatalog_catch.

(** [file.src.<field>] *)
Definition src_field (file : value) (field : string) : M value :=
  src <- get file "src" ;;
  get src field.

(** The body of the [try] block of [getSrc]. *)
Definition getSrc_try (h : Host) (textDocumentUri : Uri) (doc : value)
  (contentSourceRootPath : string) (contentCatalog : ContentCatalog) : M value :=
  component <- get doc "name" ;;
  version <- get doc "version" ;;
  file <- lift (getByPath contentCatalog
                  (mkPathKey component version
                     (Path.relative (cwd h) contentSourceRootPath
                        (path textDocumentUri)))) ;;
  c <- src_field file "component" ;;
  v <- src_field file "version" ;;
  m <- src_field file "module" ;;
  f <- src_field file "family" ;;
  r <- src_field file "relative" ;;
  object_literal [("component", c); ("version", v); ("module", m);
                  ("family", f); ("relative", r)].

Definition getSrc (h : Host) (textDocumentUri : Uri)
  (contentCatalog : option ContentCatalog) : M value :=
  antoraConfig <- getAntoraConfig h textDocumentUri ;;
  doc <- parseAntoraConfig h textDocumentUri ;;
  match antoraConfig with
  | Some config =>
      let contentSourceRootPath := Path.dirname (fsPath config) in
      empty <- object_literal [] ;;
      match negb (strict_eq doc empty), contentCatalog with
      | true, Some catalog =>
          try_catch
            (getSrc_try h textDocumentUri doc contentSourceRootPath catalog)
            (fun e =>
               console_log ("Unable to return src : " ++ error_toString e) ;;;
               object_literal [])
      | _, _ => object_literal []
      end
  | None => object_literal []
  end.

Definition allowed_families : list string :=
  ["attachment"; "example"; "image"; "page"; "partial"].

Definition resolveAntoraResourceIds (id : string)
  (contentCatalog : option ContentCatalog) (src : value) (family : string)
  : M value :=
  match contentCatalog with
  | None => ret VUndefined
  | Some catalog =>
      component <- get src "component" ;;
      version <- get src "version" ;;
      module <- get src "module" ;;
      resource <- lift (resolveResource catalog id
                          (mkResourceContext component version module)
                          family allowed_families) ;;
      if negb (strict_eq resource VUndefined) then
        src' <- get resource "src" ;;
        get src' "abspath"
      else ret VUndefined
  end.

(** ** The opt-in gate of [AntoraSupportManager]

    A session is what the constructor and its open-document listener read
    and write.  A run of the listener is suspended while its information
    message is on screen: documents opened in the meantime start further
    runs.  In a session the search of a run and the two updates of a run
    are over before the next event arrives; the listener await by await,
    without this restriction, is [Live] below, and every run of a session
    is one of its runs. *)

Record Session : Type := mkSession {
  persisted : Settings;
  subscribed : bool;        (* the onDidOpenTextDocument listener is in place *)
  providers : nat;          (* completion providers registered by activate() *)
  prompts : nat;            (* information messages shown so far *)
  pending : list Uri;       (* documents whose message awaits an answer *)
  out : world
}.

Definition yesAnswer : string := "Yes".
Definition noAnswer : string := "No, thanks".

(** [if (v)] *)
Definition truthy (v : value) : bool :=
  match v with
  | VUndefined | VNull => false
  | VBool b => b
  | VNum n => negb (Z.eqb n 0)
  | VStr s => negb (s =? "")%string
  | VObj _ _ => true
  end.

Definition activate (s : Session) : Session :=
  mkSession (persisted s) (subscribed s) (S (providers s)) (prompts s)
    (pending s) (out s).

(** [new AntoraSupportManager(context)] *)
Definition construct (st : Settings) (w : world) : Session :=
  let fresh := mkSession st false 0 0 [] w in
  let isEnableAntoraSupportSettingDefined := antoraSupportSetting st in
  if strict_eq isEnableAntoraSupportSettingDefined (VBool true) then
    let enableAntoraSupport := enableAntoraSupport st in
    if strict_eq enableAntoraSupport (VBool true) then activate fresh else fresh
  else if strict_eq isEnableAntoraSupportSettingDefined VUndefined then
    mkSession st true 0 0 [] w
  else fresh.

Inductive event : Type :=
| OpenTextDocument (textDocument : Uri)
| UserAnswers (k : nat) (answer : option string).

Fixpoint remove_nth {A} (k : nat) (l : list A) : list A :=
  match k, l with
  | _, [] => []
  | 0, _ :: l' => l'
  | S k', x :: l' => x :: remove_nth k' l'
  end.

(** The listener up to its information message, the search being over
    before the next event. *)
Definition on_open (h : Host) (textDocument : Uri) (s : Session) : Session :=
  if subscribed s then
    match antoraConfigExists h textDocument (out s) with
    | (Returned true, w) =>
        mkSession (persisted s) (subscribed s) (providers s) (S (prompts s))
          (pending s ++ [textDocument])%list w
    | (_, w) =>
        mkSession (persisted s) (subscribed s) (providers s) (prompts s)
          (pending s) w
    end
  else s.

(** The listener from the answer of the user to its end, the two updates
    being written before the next event. *)
Definition on_answer (k : nat) (answer : option string) (s : Session) : Session :=
  match nth_error (pending s) k with
  | None => s
  | Some _ =>
      let enableAntoraSupport :=
        match answer with
        | Some a =>
            if (a =? yesAnswer)%string then VBool true
            else if (a =? noAnswer)%string then VBool false
            else VUndefined
        | None => VUndefined
        end in
      let s1 := mkSession (mkSettings (VBool true) enableAntoraSupport)
                  (subscribed s) (providers s) (prompts s)
                  (remove_nth k (pending s)) (out s) in
      let s2 := if truthy enableAntoraSupport then activate s1 else s1 in
      mkSession (persisted s2) false (providers s2) (prompts s2) (pending s2)
        (out s2)
  end.

Definition step (h : Host) (s : Session) (e : event) : Session :=
  match e with
  | OpenTextDocument d => on_open h d s
  | UserAnswers k a => on_answer k a s
  end.

Definition run (h : Host) (s : Session) (es : list event) : Session :=
  fold_left (step h) es s.

(** The host as a later call finds it: the settings are those of the
    session. *)
Definition host_of (h : Host) (s : Session) : Host :=
  mkHost (findFiles h) (readFileSync h) (yaml_load h) (persisted s)
    (getWorkspaceFolder h) (aggregateContent h) (classifyContent h) (cwd h).

(** ** A sample workspace

    One component under [/home/docs], inside the workspace folder
    [/home]; the catalog knows the page [index.adoc] of the module
    [ROOT]. *)

Definition sample_config : Uri := mkUri "/home/docs/antora.yml" "/home/docs/antora.yml".

Definition sample_page : Uri :=
  mkUri "/home/docs/modules/ROOT/pages/index.adoc"
        "/home/docs/modules/ROOT/pages/index.adoc".

Definition sample_outside : Uri := mkUri "/home/notes/todo.adoc" "/home/notes/todo.adoc".

Definition sample_yaml : data :=
  DMap [("name", DStr "docs"); ("version", DStr "1.0");
        ("asciidoc", DMap [("attributes", DMap [("experimental", DStr "")])])].

Definition sample_src : list (string * value) :=
  [("component", VStr "docs"); ("version", VStr "1.0"); ("module", VStr "ROOT");
   ("family", VStr "page"); ("relative", VStr "index.adoc");
   ("abspath", VStr "/home/docs/modules/ROOT/pages/index.adoc")].

Definition sample_file : value := VObj 0 [("src", VObj 1 sample_src)].

Definition sample_catalog : ContentCatalog :=
  mkContentCatalog
    (fun key =>
       if strict_eq (key_component key) (VStr "docs")
          && strict_eq (key_version key) (VStr "1.0")
          && (key_path key =? "modules/ROOT/pages/index.adoc")%string
       then Returned sample_file
       else Returned VUndefined)
    (fun id ctx family families =>
       if (id =? "index.adoc")%string
          && existsb (String.eqb family) families
       then Returned sample_file
       else Returned VUndefined).

Definition enabled_settings : Settings := mkSettings (VBool true) (VBool true).
Definition declined_settings : Settings := mkSettings (VBool true) (VBool false).
Definition undecided_settings : Settings := mkSettings VUndefined VUndefined.

Definition sample_host (st : Settings)
  (aggregate : Playbook -> outcome ContentAggregate) : Host :=
  mkHost [sample_config]
    (fun _ => Returned "name: docs")
    (fun _ => Returned sample_yaml)
    st
    (fun _ => Some (mkWorkspaceFolder (mkUri "/home" "/home")))
    aggregate
    (fun _ _ => Returned sample_catalog)
    "/home".

(** The same workspace with a configuration file that does not parse. *)
Definition broken_host (st : Settings) : Host :=
  mkHost [sample_config]
    (fun _ => Returned "name: [")
    (fun _ => Thrown (OtherError "YAMLException" "unexpected end of the stream"))
    st
    (fun _ => Some (mkWorkspaceFolder (mkUri "/home" "/home")))
    (fun _ => Returned (mkContentAggregate []))
    (fun _ _ => Returned sample_catalog)
    "/home".

Definition initial_world : world := World [] 0.

(** ** Notions used to state the properties *)

(** The candidate [getAntoraConfig] settles on. *)
Definition located (h : Host) (textDocumentUri : Uri) : option Uri :=
  find (applicable (fsPath textDocumentUri)) (findFiles h).

(** The line [getAntoraConfig] writes to the console. *)
Definition located_line (h : Host) (textDocumentUri : Uri) : string :=
  match located h textDocumentUri with
  | Some antoraConfig =>
      "Found an Antora configuration file at " ++ fsPath antoraConfig
      ++ " for the AsciiDoc document " ++ fsPath textDocumentUri
  | None =>
      "Unable to find an applicable Antora configuration file in ["
      ++ String.concat ", " (map Uri_toString (findFiles h))
      ++ "] for the AsciiDoc document " ++ fsPath textDocumentUri
  end.

(** The value of the property [k] of [v], when reading it does not
    throw. *)
Definition prop (v : value) (k : string) : value :=
  match v with
  | VObj _ props => lookup k props
  | _ => VUndefined
  end.

(** [v] is an object without properties. *)
Definition is_empty_object (v : value) : Prop :=
  exists stamp, v = VObj stamp [].

(** [w'] is [w] with [lines] added to the console. *)
Definition logged (lines : list string) (w : world) : world :=
  World (console w ++ lines)%list (next_stamp w).

(** The computation never throws the internal signal. *)
Definition never_disabled {A} (m : M A) : Prop :=
  forall w e w', m w = (Thrown e, w') -> instanceof_AntoraDisabledError e = false.

(** The Antora libraries do not throw the internal signal: its class is
    private to the module. *)
Definition libraries_unaware (h : Host) : Prop :=
  (forall pb e, aggregateContent h pb = Thrown e ->
                instanceof_AntoraDisabledError e = false) /\
  (forall pb agg e, classifyContent h pb agg = Thrown e ->
                    instanceof_AntoraDisabledError e = false).

Definition catalog_unaware (catalog : ContentCatalog) : Prop :=
  forall id ctx family families e,
    resolveResource catalog id ctx family families = Thrown e ->
    instanceof_AntoraDisabledError e = false.


(** ** The document test of [util/file] *)

(** [vscode.TextDocument], reduced to what the fragment reads. *)
Record TextDocument : Type := mkTextDocument {
  document_uri : Uri;
  languageId : string
}.

Definition isAsciidocFile (document : TextDocument) : bool :=
  (languageId document =? "asciidoc")%string.

(** ** Notions used to state further properties *)

(** The configuration file [c] is [/n1/.../nk/antora.yml]. *)
Definition root_names (c : Uri) (names : list string) : Prop :=
  Forall (fun n => Path.is_name n = true) names /\
  path c = Path.absolute names ++ "/antora.yml".

Definition well_placed (c : Uri) : Prop := exists names, root_names c names.

(** The component of [inner] lies in the [modules] directory of the
    component of [outer]. *)
Definition nested (outer inner : Uri) : Prop :=
  exists names below,
    root_names outer names /\
    root_names inner (names ++ "modules" :: below)%list.

(** The event is the opening of a document. *)
Definition is_open (e : event) : bool :=
  match e with OpenTextDocument _ => true | UserAnswers _ _ => false end.

(** The session after the documents [docs] were opened one after the
    other. *)
Definition open_all (h : Host) (s : Session) (docs : list Uri) : Session :=
  run h s (map OpenTextDocument docs).

(** The session after the user answered the oldest message on screen,
    [n] times over, with [answer]. *)
Definition answer_all (h : Host) (s : Session) (n : nat) (answer : option string)
  : Session :=
  run h s (repeat (UserAnswers 0 answer) n).

(** Two sibling components in one workspace. *)
Definition second_config : Uri := mkUri "/home/api/antora.yml" "/home/api/antora.yml".

Definition two_component_host (files : list Uri) : Host :=
  mkHost files
    (fun _ => Returned "name: docs")
    (fun _ => Returned sample_yaml)
    enabled_settings
    (fun _ => Some (mkWorkspaceFolder (mkUri "/home" "/home")))
    (fun _ => Returned (mkContentAggregate []))
    (fun _ _ => Returned sample_catalog)
    "/home".

(** A workspace whose configuration file says what [yaml.load] is made
    to answer. *)
Definition yaml_host (parsed : outcome data) : Host :=
  mkHost [sample_config]
    (fun _ => Returned "")
    (fun _ => parsed)
    enabled_settings
    (fun _ => Some (mkWorkspaceFolder (mkUri "/home" "/home")))
    (fun _ => Returned (mkContentAggregate []))
    (fun _ _ => Returned sample_catalog)
    "/home".

(** ** The listener of the opt-in gate, await by await

    A run of the listener is suspended four times: while the workspace
    is searched, while its message is on screen, and while each of the
    two updates is written.  The listener is removed at the very end of a
    run, so documents opened while a run is suspended start runs of their
    own.  An update is visible to later reads once its await is over;
    [unset] is what the configuration answers for a setting that was
    removed by an update to [undefined]. *)

Inductive Stage : Type :=
| Searching                                   (* await antoraConfigExists(...) *)
| Asking                                      (* await showInformationMessage(...) *)
| UpdatingState (answer : option string)      (* await workspaceState.update(...) *)
| UpdatingSetting (enableAntoraSupport : value).
                                              (* await workspaceConfiguration.update(...) *)

Record Run : Type := mkRun {
  run_document : Uri;
  run_stage : Stage
}.

Record Live : Type := mkLive {
  live_persisted : Settings;
  live_subscribed : bool;     (* the listener is in place *)
  live_providers : nat;       (* completion providers registered *)
  live_prompts : nat;         (* information messages shown so far *)
  live_runs : list Run;       (* the suspended runs of the listener *)
  live_out : world
}.

Inductive signal : Type :=
| Opened (textDocument : Uri)                 (* onDidOpenTextDocument fires *)
| Searched (k : nat)                          (* the search of run [k] is over *)
| Answered (k : nat) (answer : option string) (* the message of run [k] is closed *)
| Updated (k : nat).                          (* the update run [k] awaits is written *)

Fixpoint set_nth {A} (k : nat) (x : A) (l : list A) : list A :=
  match k, l with
  | _, [] => []
  | 0, _ :: l' => x :: l'
  | S k', y :: l' => y :: set_nth k' x l'
  end.

(** [new AntoraSupportManager(context)] *)
Definition live_construct (st : Settings) (w : world) : Live :=
  let isEnableAntoraSupportSettingDefined := antoraSupportSetting st in
  if strict_eq isEnableAntoraSupportSettingDefined (VBool true) then
    let enableAntoraSupport := enableAntoraSupport st in
    if strict_eq enableAntoraSupport (VBool true)
    then mkLive st false 1 0 [] w
    else mkLive st false 0 0 [] w
  else if strict_eq isEnableAntoraSupportSettingDefined VUndefined then
    mkLive st true 0 0 [] w
  else mkLive st false 0 0 [] w.

(** [answer === yesAnswer ? true : (answer === noAnswer ? false : undefined)] *)
Definition chosen (answer : option string) : value :=
  match answer with
  | Some a =>
      if (a =? yesAnswer)%string then VBool true
      else if (a =? noAnswer)%string then VBool false
      else VUndefined
  | None => VUndefined
  end.

Definition live_step (h : Host) (unset : value) (s : Live) (e : signal) : Live :=
  match e with
  | Opened textDocument =>
      if live_subscribed s then
        mkLive (live_persisted s) true (live_providers s) (live_prompts s)
          (live_runs s ++ [mkRun textDocument Searching])%list (live_out s)
      else s
  | Searched k =>
      match nth_error (live_runs s) k with
      | Some (mkRun textDocument Searching) =>
          match antoraConfigExists h textDocument (live_out s) with
          | (Returned true, w) =>
              mkLive (live_persisted s) (live_subscribed s) (live_providers s)
                (S (live_prompts s))
                (set_nth k (mkRun textDocument Asking) (live_runs s)) w
          | (_, w) =>
              mkLive (live_persisted s) (live_subscribed s) (live_providers s)
                (live_prompts s) (remove_nth k (live_runs s)) w
          end
      | _ => s
      end
  | Answered k answer =>
      match nth_error (live_runs s) k with
      | Some (mkRun textDocument Asking) =>
          mkLive (live_persisted s) (live_subscribed s) (live_providers s)
            (live_prompts s)
            (set_nth k (mkRun textDocument (UpdatingState answer)) (live_runs s))
            (live_out s)
      | _ => s
      end
  | Updated k =>
      match nth_error (live_runs s) k with
      | Some (mkRun textDocument (UpdatingState answer)) =>
          mkLive (mkSettings (VBool true) (enableAntoraSupport (live_persisted s)))
            (live_subscribed s) (live_providers s) (live_prompts s)
            (set_nth k (mkRun textDocument (UpdatingSetting (chosen answer)))
               (live_runs s))
            (live_out s)
      | Some (mkRun textDocument (UpdatingSetting enableAntoraSupport)) =>
          mkLive
            (mkSettings (antoraSupportSetting (live_persisted s))
               (if strict_eq enableAntoraSupport VUndefined then unset
                else enableAntoraSupport))
            false
            (if truthy enableAntoraSupport then S (live_providers s)
             else live_providers s)
            (live_prompts s) (remove_nth k (live_runs s)) (live_out s)
      | _ => s
      end
  end.

Definition live_run (h : Host) (unset : value) (s : Live) (es : list signal) : Live :=
  fold_left (live_step h unset) es s.

(** The host as a later call finds it. *)
Definition live_host (h : Host) (s : Live) : Host :=
  mkHost (findFiles h) (readFileSync h) (yaml_load h) (live_persisted s)
    (getWorkspaceFolder h) (aggregateContent h) (classifyContent h) (cwd h).

(** A session seen await by await: its messages on screen are runs
    suspended at the message. *)
Definition as_live (s : Session) : Live :=
  mkLive (persisted s) (subscribed s) (providers s) (prompts s)
    (map (fun d => mkRun d Asking) (pending s)) (out s).

(** A second page of the sample component. *)
Definition sample_page2 : Uri :=
  mkUri "/home/docs/modules/ROOT/pages/install.adoc"
        "/home/docs/modules/ROOT/pages/install.adoc".


(* ================================================================== *)
(** * Part II: facts *)

(** ** Strings *)

Module StrFacts.
Import Str.

Lemma append_nil_r (s : string) : s ++ "" = s.
Proof. induction s as [|c s IH]; simpl; [reflexivity | now rewrite IH]. Qed.

Lemma append_assoc (a b c : string) : (a ++ b) ++ c = a ++ (b ++ c).
Proof. induction a as [|x a IH]; simpl; [reflexivity | now rewrite IH]. Qed.

Lemma length_append (a b : string) :
  String.length (a ++ b) = String.length a + String.length b.
Proof. induction a as [|x a IH]; simpl; [reflexivity | now rewrite IH]. Qed.

Lemma append_eq_nil (a b : string) : a ++ b = "" -> a = "" /\ b = "".
Proof. destruct a; simpl; [now split | discriminate]. Qed.

Lemma append_inv_head (p a b : string) : p ++ a = p ++ b -> a = b.
Proof.
  induction p as [|c p IH]; simpl; intros H; [exact H|].
  injection H as H. now apply IH.
Qed.

Lemma startsWith_append (p s : string) : startsWith (p ++ s) p = true.
Proof.
  unfold startsWith. induction p as [|c p IH]; simpl.
  - now destruct s.
  - destruct (ascii_dec c c) as [_|n]; [exact IH | now elim n].
Qed.

Lemma startsWith_inv (s p : string) :
  startsWith s p = true -> exists r, s = p ++ r.
Proof.
  unfold startsWith. revert s. induction p as [|c p IH]; intros s H.
  - now exists s.
  - destruct s as [|d s]; simpl in H; [discriminate|].
    destruct (ascii_dec c d) as [->|_]; [|discriminate].
    destruct (IH _ H) as [r ->]. now exists r.
Qed.

Lemma slice_append (p s : string) : slice (p ++ s) (String.length p) = s.
Proof. induction p as [|c p IH]; simpl; [now destruct s | exact IH]. Qed.

Lemma take_append (p s : string) : take (p ++ s) (String.length p) = p.
Proof.
  unfold take. induction p as [|c p IH]; simpl.
  - now destruct s.
  - now rewrite IH.
Qed.

Lemma lacks_append (c : ascii) (a b : string) :
  lacks c (a ++ b) = lacks c a && lacks c b.
Proof.
  induction a as [|x a IH]; simpl; [reflexivity|].
  now rewrite IH, andb_assoc.
Qed.

Lemma rev_units_append (a b : string) (acc : list ascii) :
  rev_units (a ++ b) acc = rev_units b (rev_units a acc).
Proof. revert acc. induction a as [|x a IH]; intros acc; simpl; [reflexivity | apply IH]. Qed.

Lemma last_is_append_cons (c d : ascii) (a b : string) :
  last_is c (a ++ String d b) = last_is c (String d b).
Proof.
  induction a as [|x a IH]; [reflexivity|].
  change (String x a ++ String d b) with (String x (a ++ String d b)).
  cbn [last_is]. destruct (a ++ String d b) eqn:E.
  - destruct a; discriminate.
  - exact IH.
Qed.

End StrFacts.

(** ** Regular expressions: the matcher decides the language *)

Module RegexFacts.
Import Regex StrFacts.

Lemma matches_eq (r : regex) (s : string) :
  matches r s =
  nullable r || match s with
                | EmptyString => false
                | String c s' => matches (deriv c r) s'
                end.
Proof. destruct s; reflexivity. Qed.

Lemma lang_nil_nullable (r : regex) (s : string) :
  lang r s -> s = "" -> nullable r = true.
Proof.
  induction 1; intros E; simpl; try reflexivity; try discriminate.
  - apply append_eq_nil in E as [-> ->]. now rewrite IHlang1, IHlang2.
  - now rewrite IHlang.
  - rewrite IHlang by assumption. apply orb_true_r.
Qed.

Lemma nullable_lang (r : regex) : nullable r = true -> lang r "".
Proof.
  induction r; simpl; intros H; try discriminate.
  - constructor.
  - apply andb_true_iff in H as [H1 H2].
    change "" with ("" ++ ""). constructor; auto.
  - apply orb_true_iff in H as [H|H]; [apply LAltL | apply LAltR]; auto.
  - constructor.
Qed.

Lemma deriv_sound (c : ascii) (r : regex) :
  forall s, lang (deriv c r) s -> lang r (String c s).
Proof.
  induction r; simpl; intros s H.
  - inversion H.
  - inversion H.
  - destruct (Ascii.eqb_spec c c0) as [->|_]; inversion H; subst. constructor.
  - destruct (Ascii.eqb_spec c c0) as [_|n]; inversion H; subst. now constructor.
  - destruct (line_terminator c) eqn:E; inversion H; subst. now constructor.
  - destruct (nullable r1) eqn:N.
    + inversion H; subst.
      * match goal with X : lang (Seq _ _) _ |- _ => inversion X; subst end.
        change (String c (s1 ++ s2)) with (String c s1 ++ s2).
        constructor; auto.
      * change (String c s) with ("" ++ String c s).
        constructor; [now apply nullable_lang | auto].
    + inversion H; subst.
      change (String c (s1 ++ s2)) with (String c s1 ++ s2).
      constructor; auto.
  - inversion H; subst; [apply LAltL | apply LAltR]; auto.
  - inversion H; subst.
    change (String c (s1 ++ s2)) with (String c s1 ++ s2).
    constructor; auto.
Qed.

Lemma deriv_complete (r : regex) (t : string) :
  lang r t -> forall a u, t = String a u -> lang (deriv a r) u.
Proof.
  induction 1; intros a u E; simpl; try discriminate.
  - injection E as -> <-. rewrite Ascii.eqb_refl. constructor.
  - injection E as -> <-.
    destruct (Ascii.eqb_spec a c) as [e|_]; [now elim H | constructor].
  - injection E as -> <-. rewrite H. constructor.
  - destruct s1 as [|x s1]; simpl in E.
    + rewrite (lang_nil_nullable _ _ H eq_refl). apply LAltR; eauto.
    + injection E as -> <-.
      destruct (nullable r1); [apply LAltL|]; constructor; eauto.
  - apply LAltL; eauto.
  - apply LAltR; eauto.
  - destruct s1 as [|x s1]; simpl in E.
    + exact (IHlang2 _ _ E).
    + injection E as -> <-. constructor; eauto.
Qed.

Lemma matches_spec (r : regex) (s : string) :
  matches r s = true <-> exists p q, s = p ++ q /\ lang r p.
Proof.
  revert r. induction s as [|c s IH]; intros r; rewrite matches_eq.
  - rewrite orb_false_r. split.
    + intros N. exists "", "". split; [reflexivity | now apply nullable_lang].
    + intros (p & q & E & L). symmetry in E.
      apply append_eq_nil in E as [-> _]. exact (lang_nil_nullable _ _ L eq_refl).
  - rewrite orb_true_iff, IH. split.
    + intros [N | (p & q & -> & L)].
      * exists "", (String c s). split; [reflexivity | now apply nullable_lang].
      * exists (String c p), q. split; [reflexivity | now apply deriv_sound].
    + intros (p & q & E & L). destruct p as [|x p]; simpl in E.
      * left. exact (lang_nil_nullable _ _ L eq_refl).
      * injection E as <- ->. right. exists p, q.
        split; [reflexivity | exact (deriv_complete _ _ L _ _ eq_refl)].
Qed.

Lemma lang_Lit (l s : string) : lang (Lit l) s <-> s = l.
Proof.
  revert s. induction l as [|c l IH]; intros s; simpl.
  - split; [now inversion 1 | intros ->; constructor].
  - split.
    + inversion 1; subst.
      match goal with X : lang (Char _) _ |- _ => inversion X; subst end.
      simpl. f_equal. now apply IH.
    + intros ->. change (String c l) with (String c "" ++ l).
      constructor; [constructor | now apply IH].
Qed.

Lemma lang_star_NotChar (c : ascii) (r : regex) (s : string) :
  lang r s -> r = Star (NotChar c) -> Str.lacks c s = true.
Proof.
  induction 1; intros E; try discriminate; [reflexivity|].
  injection E as ->. rewrite lacks_append, IHlang2 by reflexivity.
  inversion H; subst. simpl.
  destruct (Ascii.eqb_spec d c) as [e|_]; [contradiction | reflexivity].
Qed.

Lemma lacks_lang_star (c : ascii) (s : string) :
  Str.lacks c s = true -> lang (Star (NotChar c)) s.
Proof.
  induction s as [|d s IH]; simpl; intros H; [constructor|].
  apply andb_true_iff in H as [H1 H2].
  change (String d s) with (String d "" ++ s).
  constructor; [|auto]. constructor.
  intros ->. now rewrite Ascii.eqb_refl in H1.
Qed.

(** The strings matched by [[^c]+]. *)
Lemma lang_plus_NotChar (c : ascii) (s : string) :
  lang (Plus (NotChar c)) s <-> s <> "" /\ Str.lacks c s = true.
Proof.
  unfold Plus. split.
  - inversion 1; subst.
    match goal with X : lang (NotChar _) _ |- _ => inversion X; subst end.
    split; [discriminate|]. simpl.
    match goal with X : lang (Star _) _ |- _ =>
      rewrite (lang_star_NotChar _ _ _ X eq_refl) end.
    destruct (Ascii.eqb_spec d c) as [e|_]; [contradiction | reflexivity].
  - intros [N L]. destruct s as [|d s]; [now elim N|].
    simpl in L. apply andb_true_iff in L as [L1 L2].
    change (String d s) with (String d "" ++ s).
    constructor; [|now apply lacks_lang_star].
    constructor. intros ->. now rewrite Ascii.eqb_refl in L1.
Qed.

End RegexFacts.

(** ** Paths: normal forms are fixed points *)

Module PathFacts.
Import Str StrFacts Path.

Lemma is_name_inv (n : string) :
  is_name n = true ->
  lacks sep n = true /\ n <> "" /\ n <> "." /\ n <> "..".
Proof.
  unfold is_name. rewrite !andb_true_iff, !negb_true_iff, !String.eqb_neq.
  tauto.
Qed.

Lemma names_lack_sep (l : list string) :
  Forall (fun n => is_name n = true) l ->
  Forall (fun n => lacks sep n = true) l.
Proof. apply Forall_impl. intros n H. now apply is_name_inv in H. Qed.

Lemma split_lacks (s : string) : lacks sep s = true -> split s = [s].
Proof.
  induction s as [|c s IH]; simpl; [reflexivity|]. intros H.
  apply andb_true_iff in H as [H1 H2]. apply negb_true_iff in H1.
  rewrite H1, (IH H2). reflexivity.
Qed.

Lemma split_name_sep (s rest : string) :
  lacks sep s = true -> split (s ++ String sep rest) = s :: split rest.
Proof.
  induction s as [|c s IH]; simpl; intros H.
  - reflexivity.
  - apply andb_true_iff in H as [H1 H2]. apply negb_true_iff in H1.
    rewrite H1, (IH H2). reflexivity.
Qed.

Lemma split_name_absolute (l : list string) :
  Forall (fun n => lacks sep n = true) l ->
  forall x, lacks sep x = true -> split (x ++ absolute l) = x :: l.
Proof.
  induction 1 as [|y l Hy _ IH]; intros x Hx; simpl.
  - rewrite append_nil_r. now apply split_lacks.
  - rewrite split_name_sep by exact Hx. f_equal. now apply IH.
Qed.

Lemma split_absolute (l : list string) :
  Forall (fun n => lacks sep n = true) l -> split (absolute l) = "" :: l.
Proof.
  intros H. destruct H as [|x l Hx Hl]; [reflexivity|].
  simpl. f_equal. now apply split_name_absolute.
Qed.

Lemma absolute_app (l1 l2 : list string) :
  absolute (l1 ++ l2) = absolute l1 ++ absolute l2.
Proof.
  induction l1 as [|x l1 IH]; simpl; [reflexivity|].
  now rewrite IH, append_assoc.
Qed.

Lemma normalize_step_name (b : bool) (stack : list string) (n : string) :
  is_name n = true -> normalize_step b stack n = n :: stack.
Proof.
  intros H. apply is_name_inv in H as (_ & H1 & H2 & H3).
  unfold normalize_step.
  apply String.eqb_neq in H1, H2, H3. now rewrite H1, H2, H3.
Qed.

Lemma fold_names (b : bool) (l : list string) :
  Forall (fun n => is_name n = true) l ->
  forall stack, fold_left (normalize_step b) l stack = (rev l ++ stack)%list.
Proof.
  induction 1 as [|x l Hx _ IH]; intros stack; simpl; [reflexivity|].
  rewrite (normalize_step_name _ _ _ Hx), IH, <- app_assoc. reflexivity.
Qed.

Lemma normalize_segments_names (b : bool) (l : list string) :
  Forall (fun n => is_name n = true) l ->
  normalize_segments b ("" :: l) = l.
Proof.
  intros H. unfold normalize_segments. simpl.
  change (normalize_step b [] "") with (@nil string).
  rewrite (fold_names _ _ H), app_nil_r. apply rev_involutive.
Qed.

Lemma concat_absolute (x : string) (l : list string) :
  String sep (String.concat "/" (x :: l)) = absolute (x :: l).
Proof.
  revert x. induction l as [|y l IH]; intros x.
  - simpl. now rewrite append_nil_r.
  - change (String.concat "/" (x :: y :: l))
      with (x ++ String sep (String.concat "/" (y :: l))).
    rewrite IH. reflexivity.
Qed.

Lemma lacks_last_is (c : ascii) (s : string) :
  lacks c s = true -> last_is c s = false.
Proof.
  induction s as [|d s IH]; simpl; [reflexivity|]. intros H.
  apply andb_true_iff in H as [H1 H2]. apply negb_true_iff in H1.
  destruct s; [exact H1 | now apply IH].
Qed.

Lemma last_is_absolute (x : string) (l : list string) :
  Forall (fun n => is_name n = true) (x :: l) ->
  last_is sep (absolute (x :: l)) = false.
Proof.
  revert x. induction l as [|y l IH]; intros x H.
  - inversion H as [|? ? Hx _]; subst.
    apply is_name_inv in Hx as (Hx & Hne & _).
    simpl. rewrite append_nil_r.
    destruct x as [|c x]; [now elim Hne|].
    now apply lacks_last_is.
  - inversion H as [|? ? _ Hl]; subst.
    change (absolute (x :: y :: l))
      with (String sep x ++ String sep (y ++ absolute l)).
    rewrite last_is_append_cons. now apply IH.
Qed.

Lemma normalize_absolute (l : list string) :
  l <> [] -> Forall (fun n => is_name n = true) l ->
  normalize (absolute l) = absolute l.
Proof.
  intros Hne H. destruct l as [|x l]; [now elim Hne|].
  pose proof (last_is_absolute _ _ H) as Hlast.
  pose proof (split_absolute _ (names_lack_sep _ H)) as Hsplit.
  pose proof (concat_absolute x l) as Hcat.
  unfold normalize.
  destruct (absolute (x :: l)) as [|c p] eqn:E; [discriminate|].
  rewrite Hlast, Hsplit.
  assert (Habs : isAbsolute (String c p) = true).
  { simpl in E. injection E as <- _. reflexivity. }
  rewrite Habs. simpl negb.
  rewrite (normalize_segments_names _ _ H).
  destruct (String.concat "/" (x :: l)) as [|d r] eqn:C.
  - inversion H as [|? ? Hx _]; subst.
    apply is_name_inv in Hx as (_ & Hx & _).
    destruct x; [now elim Hx|]. destruct l; discriminate.
  - exact Hcat.
Qed.

Lemma join_absolute (l : list string) (n : string) :
  l <> [] -> Forall (fun n => is_name n = true) l -> is_name n = true ->
  join (absolute l) n = absolute l ++ String sep n.
Proof.
  intros Hne H Hn.
  assert (E : absolute l ++ String sep n = absolute (l ++ [n])).
  { rewrite absolute_app. simpl. now rewrite append_nil_r. }
  unfold join.
  destruct (absolute l) as [|c p] eqn:A.
  { destruct l; [now elim Hne | discriminate]. }
  destruct n as [|d n]; [discriminate|].
  change (String c p ++ "/" ++ String d n)
    with (String c p ++ String sep (String d n)).
  rewrite E. apply normalize_absolute.
  - destruct l; discriminate.
  - apply Forall_app. split; [exact H | now constructor].
Qed.

Lemma dirname_scan_name (n : string) :
  lacks sep n = true -> n <> "" ->
  forall acc i b,
    dirname_scan (rev_units n acc) (i + String.length n) b
    = dirname_scan acc i false.
Proof.
  induction n as [|c n IH]; intros L Hne acc i b; [now elim Hne|].
  simpl in L. apply andb_true_iff in L as [L1 L2]. apply negb_true_iff in L1.
  destruct (string_dec n "") as [->|Hn].
  - simpl. rewrite L1. f_equal. lia.
  - change (rev_units (String c n) acc) with (rev_units n (c :: acc)).
    replace (i + String.length (String c n))
      with (S i + String.length n) by (simpl; lia).
    rewrite (IH L2 Hn).
    simpl. rewrite L1. f_equal. lia.
Qed.

Lemma dirname_child (l : list string) (n : string) :
  Forall (fun n => is_name n = true) l -> is_name n = true ->
  dirname (absolute l ++ String sep n)
  = match l with [] => "/" | _ => absolute l end.
Proof.
  intros H Hn. apply is_name_inv in Hn as (Ln & Hne & _).
  destruct l as [|x l].
  - simpl. rewrite Nat.sub_0_r.
    change (String.length n) with (0 + String.length n).
    rewrite (dirname_scan_name _ Ln Hne [] 0 true). reflexivity.
  - set (R := x ++ absolute l).
    assert (HR : 1 <= String.length R).
    { inversion H as [|? ? Hx _]; subst.
      apply is_name_inv in Hx as (_ & Hx & _).
      unfold R. destruct x; [now elim Hx | simpl; lia]. }
    change (absolute (x :: l)) with (String sep R).
    change (String sep R ++ String sep n) with (String sep (R ++ String sep n)).
    unfold dirname. rewrite Ascii.eqb_refl.
    rewrite rev_units_append. cbn [rev_units].
    replace (String.length (String sep (R ++ String sep n)) - 1)
      with (S (String.length R) + String.length n)
      by (simpl; rewrite length_append; simpl; lia).
    rewrite (dirname_scan_name _ Ln Hne).
    cbn [dirname_scan]. rewrite Ascii.eqb_refl.
    replace (Nat.eqb (S (String.length R)) 1) with false
      by (symmetry; apply Nat.eqb_neq; lia).
    cbn [andb].
    change (String sep (R ++ String sep n)) with (String sep R ++ String sep n).
    change (S (String.length R)) with (String.length (String sep R)).
    apply take_append.
Qed.

(** The directory [modules] next to a configuration file
    [/n1/.../nk/antora.yml]. *)
Lemma modulesPath_of_root (l : list string) :
  Forall (fun n => is_name n = true) l ->
  join (dirname (absolute l ++ "/antora.yml")) "modules"
  = absolute l ++ "/modules".
Proof.
  intros H.
  change "/antora.yml" with (String sep "antora.yml").
  rewrite (dirname_child _ _ H) by reflexivity.
  destruct l as [|x l]; [reflexivity|].
  apply join_absolute; [discriminate | exact H | reflexivity].
Qed.

Lemma isAbsolute_absolute (l : list string) :
  l <> [] -> isAbsolute (absolute l) = true.
Proof. destruct l; [now intros H; elim H | reflexivity]. Qed.

Lemma resolve_segments_absolute (cwd : string) (l : list string) :
  l <> [] -> Forall (fun n => is_name n = true) l ->
  resolve_segments cwd (absolute l) = l.
Proof.
  intros Hne H. unfold resolve_segments.
  rewrite (isAbsolute_absolute _ Hne), (split_absolute _ (names_lack_sep _ H)).
  now apply normalize_segments_names.
Qed.

Lemma strip_common_prefix (l sub : list string) :
  strip_common l (l ++ sub)%list = ([], sub).
Proof.
  induction l as [|x l IH]; simpl.
  - now destruct sub.
  - now rewrite String.eqb_refl.
Qed.

(** From a directory to one of its descendants. *)
Lemma relative_descendant (cwd : string) (l sub : list string) :
  l <> [] -> Forall (fun n => is_name n = true) (l ++ sub)%list ->
  relative cwd (absolute l) (absolute (l ++ sub)) = String.concat "/" sub.
Proof.
  intros Hne H. unfold relative.
  rewrite resolve_segments_absolute;
    [| exact Hne | now apply Forall_app in H as [H _]].
  rewrite resolve_segments_absolute; [| now destruct l | exact H].
  rewrite strip_common_prefix. reflexivity.
Qed.

(** The examples of the documentation of Node. *)
Example dirname_doc : dirname "/foo/bar/baz/asdf/quux" = "/foo/bar/baz/asdf".
Proof. reflexivity. Qed.

Example normalize_doc :
  normalize "/foo/bar//baz/asdf/quux/.." = "/foo/bar/baz/asdf".
Proof. reflexivity. Qed.

Example join_doc : join "/foo/bar" "baz/asdf/quux/.." = "/foo/bar/baz/asdf".
Proof. reflexivity. Qed.

Example relative_doc :
  relative "/" "/data/orandea/test/aaa" "/data/orandea/impl/bbb"
  = "../../impl/bbb".
Proof. reflexivity. Qed.

End PathFacts.

(** ** The configuration locator *)

Module LocatorFacts.
Import Str StrFacts Regex RegexFacts.

(** The subjects accepted by [/^\/[^/]+\/pages\/.*/]. *)
Lemma matches_pages_pattern (s : string) :
  matches pages_pattern s = true <->
  exists seg rest,
    seg <> "" /\ lacks "/" seg = true /\ s = "/" ++ seg ++ "/pages/" ++ rest.
Proof.
  rewrite matches_spec. split.
  - intros (p & q & -> & L). unfold pages_pattern in L.
    inversion L as [| | | |? ? s1 t1 L1 M1| | | |]; subst.
    inversion L1; subst.
    inversion M1 as [| | | |? ? s2 t2 L2 M2| | | |]; subst.
    inversion M2 as [| | | |? ? s3 t3 L3 M3| | | |]; subst.
    apply lang_plus_NotChar in L2 as [Hne Hl].
    apply (proj1 (lang_Lit "/pages/" _)) in L3 as ->.
    exists s2, (t3 ++ q). repeat split; try assumption.
    simpl. now rewrite !append_assoc.
  - intros (seg & rest & Hne & Hl & ->).
    exists ("/" ++ seg ++ "/pages/" ++ ""), rest. split.
    + simpl. now rewrite !append_assoc.
    + unfold pages_pattern.
      constructor; [constructor|].
      constructor; [now apply lang_plus_NotChar|].
      constructor; [now apply lang_Lit | constructor].
Qed.

(** A string is cut at its first separator in one way only. *)
Lemma first_sep_unique (c : ascii) (a a' b b' : string) :
  lacks c a = true -> lacks c a' = true ->
  a ++ String c b = a' ++ String c b' -> a = a' /\ b = b'.
Proof.
  revert a'. induction a as [|x a IH]; intros a' La La' E.
  - destruct a' as [|y a']; simpl in E.
    + injection E as ->. now split.
    + injection E as <- _. simpl in La'. now rewrite Ascii.eqb_refl in La'.
  - destruct a' as [|y a']; simpl in E.
    + injection E as -> _. simpl in La. now rewrite Ascii.eqb_refl in La.
    + injection E as <- E. simpl in La, La'.
      apply andb_true_iff in La as [_ La], La' as [_ La'].
      destruct (IH a' La La' E) as [-> ->]. now split.
Qed.

Lemma applicable_iff (names : list string) (doc : string) (antoraConfig : Uri) :
  Forall (fun n => Path.is_name n = true) names ->
  path antoraConfig = Path.absolute names ++ "/antora.yml" ->
  applicable doc antoraConfig = true <->
  exists seg rest,
    seg <> "" /\ lacks "/" seg = true /\
    doc = Path.absolute names ++ "/modules/" ++ seg ++ "/pages/" ++ rest.
Proof.
  intros Hn Hp. unfold applicable.
  rewrite Hp, (PathFacts.modulesPath_of_root _ Hn).
  rewrite andb_true_iff. split.
  - intros [Hs Hm]. apply startsWith_inv in Hs as [r ->].
    rewrite slice_append in Hm.
    apply matches_pages_pattern in Hm as (seg & rest & Hne & Hl & ->).
    exists seg, rest. repeat split; try assumption.
    now rewrite !append_assoc.
  - intros (seg & rest & Hne & Hl & ->).
    replace (Path.absolute names ++ "/modules/" ++ seg ++ "/pages/" ++ rest)
      with ((Path.absolute names ++ "/modules")
            ++ "/" ++ seg ++ "/pages/" ++ rest)
      by now rewrite !append_assoc.
    rewrite startsWith_append, slice_append. split; [reflexivity|].
    apply matches_pages_pattern. now exists seg, rest.
Qed.

Lemma getAntoraConfig_loop_spec (doc : string) (antoraConfigs : list Uri) (w : world) :
  exists w',
    getAntoraConfig_loop doc antoraConfigs w
    = (Returned (find (applicable doc) antoraConfigs), w').
Proof.
  induction antoraConfigs as [|c l IH]; simpl.
  - now exists w.
  - destruct (applicable doc c); [|exact IH].
    eexists. reflexivity.
Qed.

Lemma getAntoraConfig_returns (h : Host) (textDocumentUri : Uri) (w : world) :
  exists w',
    getAntoraConfig h textDocumentUri w
    = (Returned (find (applicable (fsPath textDocumentUri)) (findFiles h)), w').
Proof.
  unfold getAntoraConfig, bind.
  destruct (getAntoraConfig_loop_spec (fsPath textDocumentUri) (findFiles h) w)
    as [w' ->].
  destruct (find _ _); eexists; reflexivity.
Qed.

Lemma find_first {A} (f : A -> bool) (l : list A) :
  match find f l with
  | Some x =>
      exists before after,
        l = (before ++ x :: after)%list /\ f x = true /\
        Forall (fun y => f y = false) before
  | None => Forall (fun y => f y = false) l
  end.
Proof.
  induction l as [|a l IH]; simpl; [constructor|].
  destruct (f a) eqn:E.
  - exists [], l. repeat split; [exact E | constructor].
  - destruct (find f l) as [x|].
    + destruct IH as (before & after & -> & Hx & Hb).
      exists (a :: before), after. repeat split; [exact Hx | now constructor].
    + now constructor.
Qed.

Example pattern_empty_rest : matches pages_pattern "/m/pages/" = true.
Proof. reflexivity. Qed.

Example pattern_no_final_separator : matches pages_pattern "/m/pages" = false.
Proof. reflexivity. Qed.

Example pattern_empty_module : matches pages_pattern "//pages/x" = false.
Proof. reflexivity. Qed.

Example pattern_two_levels : matches pages_pattern "/a/b/pages/x" = false.
Proof. reflexivity. Qed.

Example pattern_line_break :
  matches pages_pattern ("/m/pages/a" ++ String "010" "b") = true.
Proof. reflexivity. Qed.

End LocatorFacts.

(** ** The fragment, run *)

Module FragmentFacts.

Lemma getAntoraConfig_loop_run (doc : string) (antoraConfigs : list Uri) (w : world) :
  getAntoraConfig_loop doc antoraConfigs w =
  match find (applicable doc) antoraConfigs with
  | Some antoraConfig =>
      (Returned (Some antoraConfig),
       logged ["Found an Antora configuration file at " ++ fsPath antoraConfig
               ++ " for the AsciiDoc document " ++ doc] w)
  | None => (Returned None, w)
  end.
Proof.
  induction antoraConfigs as [|c l IH]; simpl; [reflexivity|].
  destruct (applicable doc c); [reflexivity | exact IH].
Qed.

Lemma getAntoraConfig_run (h : Host) (textDocumentUri : Uri) (w : world) :
  getAntoraConfig h textDocumentUri w
  = (Returned (located h textDocumentUri),
     logged [located_line h textDocumentUri] w).
Proof.
  unfold getAntoraConfig, bind. rewrite getAntoraConfig_loop_run.
  unfold located_line, located.
  destruct (find _ _); reflexivity.
Qed.

Lemma strict_eq_true (v : value) : strict_eq v (VBool true) = true <-> v = VBool true.
Proof.
  destruct v as [| |b| | |]; simpl; try (split; [discriminate | discriminate]).
  destruct b; simpl; split; try reflexivity; discriminate.
Qed.

Lemma getActiveAntoraConfig_run (h : Host) (textDocumentUri : Uri) (w : world) :
  getActiveAntoraConfig h textDocumentUri w =
  if strict_eq (antoraSupportSetting (settings h)) (VBool true)
     && strict_eq (enableAntoraSupport (settings h)) (VBool true)
  then getAntoraConfig h textDocumentUri w
  else (Returned None, w).
Proof.
  unfold getActiveAntoraConfig.
  destruct (strict_eq (antoraSupportSetting _) _); [|reflexivity].
  destruct (strict_eq (enableAntoraSupport _) _); reflexivity.
Qed.

(** The object built last carries the greatest stamp. *)
Lemma instantiate_top (d : data) (n : nat) :
  forall i ps n', instantiate d n = (VObj i ps, n') -> i < n'.
Proof.
  intros i ps n'. destruct d; simpl; try discriminate.
  - match goal with |- context [let (_, _) := ?g in _] => destruct g end.
    intros E. injection E as <- _ <-. lia.
  - match goal with |- context [let (_, _) := ?g in _] => destruct g end.
    intros E. injection E as <- _ <-. lia.
Qed.

Lemma parseAntoraConfig_run (h : Host) (textDocumentUri : Uri) (w : world) :
  let w1 := logged [located_line h textDocumentUri] w in
  parseAntoraConfig h textDocumentUri w =
  match located h textDocumentUri with
  | Some u =>
      let failure err :=
        object_literal []
          (logged ["Unable to parse " ++ fsPath u ++ ", cause:"
                   ++ error_toString err] w1) in
      match readFileSync h (fsPath u) with
      | Returned text =>
          match yaml_load h text with
          | Returned parsed => allocate parsed w1
          | Thrown err => failure err
          end
      | Thrown err => failure err
      end
  | None => object_literal [] w1
  end.
Proof.
  intros w1. unfold parseAntoraConfig, bind.
  rewrite getAntoraConfig_run. fold w1.
  destruct (located h textDocumentUri) as [u|]; [|reflexivity].
  unfold try_catch, bind, lift.
  destruct (readFileSync h (fsPath u)) as [text|err]; [|reflexivity].
  destruct (yaml_load h text) as [parsed|err]; [|reflexivity].
  unfold allocate. destruct (instantiate parsed (next_stamp w1)); reflexivity.
Qed.

(** [parseAntoraConfig] never throws. *)
Lemma parseAntoraConfig_returns (h : Host) (textDocumentUri : Uri) (w : world) :
  exists doc w', parseAntoraConfig h textDocumentUri w = (Returned doc, w').
Proof.
  rewrite parseAntoraConfig_run. cbv zeta. unfold object_literal.
  destruct (located h textDocumentUri) as [u|]; [|eauto].
  destruct (readFileSync h (fsPath u)) as [text|err]; [|eauto].
  destruct (yaml_load h text) as [parsed|err]; [|eauto].
  unfold allocate. destruct (instantiate parsed _); eauto.
Qed.

(** What [parseAntoraConfig] returns was allocated before it returned: it
    is not the object of a later literal. *)
Lemma parseAntoraConfig_older (h : Host) (textDocumentUri : Uri) (w w' : world)
  (doc : value) :
  parseAntoraConfig h textDocumentUri w = (Returned doc, w') ->
  forall props, strict_eq doc (VObj (next_stamp w') props) = false.
Proof.
  rewrite parseAntoraConfig_run. cbv zeta. unfold object_literal.
  intros E props.
  assert (G : forall i ps, doc = VObj i ps -> i < next_stamp w').
  { intros i ps ->. revert E.
    destruct (located h textDocumentUri) as [u|].
    2:{ intros E. inversion E; subst. simpl. lia. }
    destruct (readFileSync h (fsPath u)) as [text|err].
    2:{ intros E. inversion E; subst. simpl. lia. }
    destruct (yaml_load h text) as [parsed|err].
    2:{ intros E. inversion E; subst. simpl. lia. }
    unfold allocate.
    destruct (instantiate parsed _) as [v n] eqn:I.
    intros E. injection E as -> <-. simpl.
    exact (instantiate_top _ _ _ _ _ I). }
  destruct doc; try reflexivity.
  simpl. apply Nat.eqb_neq. specialize (G _ _ eq_refl). lia.
Qed.

Lemma never_disabled_ret {A} (a : A) : never_disabled (ret a).
Proof. intros w e w' E. discriminate. Qed.

Lemma never_disabled_bind {A B} (m : M A) (k : A -> M B) :
  never_disabled m -> (forall a, never_disabled (k a)) ->
  never_disabled (bind m k).
Proof.
  intros Hm Hk w e w'. unfold bind.
  destruct (m w) as [[a|e0] w0] eqn:E.
  - apply Hk.
  - intros X. injection X as <- <-. exact (Hm _ _ _ E).
Qed.

Lemma never_disabled_get (v : value) (k : string) : never_disabled (get v k).
Proof. intros w e w'. destruct v; simpl; unfold ret, throw; intros E;
  try discriminate; now injection E as <- _. Qed.

Lemma never_disabled_object_literal (props : list (string * value)) :
  never_disabled (object_literal props).
Proof. intros w e w' E. discriminate. Qed.

Lemma never_disabled_console_log (line : string) :
  never_disabled (console_log line).
Proof. intros w e w' E. discriminate. Qed.

Lemma never_disabled_getAntoraConfig (h : Host) (d : Uri) :
  never_disabled (getAntoraConfig h d).
Proof. intros w e w'. rewrite getAntoraConfig_run. discriminate. Qed.

Lemma never_disabled_getActiveAntoraConfig (h : Host) (d : Uri) :
  never_disabled (getActiveAntoraConfig h d).
Proof.
  intros w e w'. rewrite getActiveAntoraConfig_run.
  destruct (_ && _); [apply never_disabled_getAntoraConfig | discriminate].
Qed.

Lemma never_disabled_parseAntoraConfig (h : Host) (d : Uri) :
  never_disabled (parseAntoraConfig h d).
Proof.
  intros w e w' E.
  destruct (parseAntoraConfig_returns h d w) as (v & w1 & R).
  rewrite R in E. discriminate.
Qed.

Lemma never_disabled_createPlaybook (h : Host) (d : Uri) :
  never_disabled (createPlaybook h d).
Proof.
  unfold createPlaybook. apply never_disabled_bind.
  - apply never_disabled_getActiveAntoraConfig.
  - intros [config|]; [|apply never_disabled_ret].
    destruct (getWorkspaceFolder h config); [apply never_disabled_ret|].
    intros w e w' E. unfold throw in E. now injection E as <- _.
Qed.

Lemma never_disabled_try (h : Host) (d : Uri) :
  libraries_unaware h -> never_disabled (getContentCatalog_try h d).
Proof.
  intros [Ha Hc]. unfold getContentCatalog_try. apply never_disabled_bind.
  - apply never_disabled_createPlaybook.
  - intros [pb|]; [|apply never_disabled_ret].
    apply never_disabled_bind.
    + intros w e w' E. unfold lift in E. injection E as E _. eauto.
    + intros agg. apply never_disabled_bind; [|intros; apply never_disabled_ret].
      intros w e w' E. unfold lift in E. injection E as E _. eauto.
Qed.

Lemma never_disabled_try_catch {A} (body : M A) (handler : error -> M A) :
  (forall e, never_disabled (handler e)) -> never_disabled (try_catch body handler).
Proof.
  intros Hh w e w'. unfold try_catch.
  destruct (body w) as [[a|e0] w0]; [discriminate | apply Hh].
Qed.

Lemma never_disabled_antoraConfigExists (h : Host) (d : Uri) :
  never_disabled (antoraConfigExists h d).
Proof.
  unfold antoraConfigExists. apply never_disabled_bind.
  - apply never_disabled_getAntoraConfig.
  - intros a. apply never_disabled_ret.
Qed.

Lemma never_disabled_getAttributes (h : Host) (d : Uri) :
  never_disabled (getAttributes h d).
Proof.
  unfold getAttributes. apply never_disabled_bind.
  - apply never_disabled_parseAntoraConfig.
  - intros doc. apply never_disabled_bind.
    + apply never_disabled_object_literal.
    + intros empty. destruct (negb _).
      * apply never_disabled_bind; intros; apply never_disabled_get.
      * apply never_disabled_object_literal.
Qed.

Lemma never_disabled_getContentCatalog (h : Host) (d : Uri) :
  never_disabled (getContentCatalog h d).
Proof.
  unfold getContentCatalog. apply never_disabled_try_catch.
  intros e w e' w'. unfold getContentCatalog_catch.
  destruct (instanceof_AntoraDisabledError e) eqn:I; [discriminate|].
  unfold bind, console_log, throw. intros E. now injection E as <- _.
Qed.

Lemma never_disabled_getSrc (h : Host) (d : Uri) (c : option ContentCatalog) :
  never_disabled (getSrc h d c).
Proof.
  unfold getSrc. apply never_disabled_bind.
  - apply never_disabled_getAntoraConfig.
  - intros cfg. apply never_disabled_bind.
    + apply never_disabled_parseAntoraConfig.
    + intros doc. destruct cfg; [|apply never_disabled_object_literal].
      apply never_disabled_bind; [apply never_disabled_object_literal|].
      intros empty.
      destruct (negb _), c; try apply never_disabled_object_literal.
      apply never_disabled_try_catch. intros e.
      apply never_disabled_bind;
        [apply never_disabled_console_log
        | intros; apply never_disabled_object_literal].
Qed.

Lemma never_disabled_resolveAntoraResourceIds (id : string)
  (catalog : option ContentCatalog) (src : value) (family : string) :
  (forall c, catalog = Some c -> catalog_unaware c) ->
  never_disabled (resolveAntoraResourceIds id catalog src family).
Proof.
  intros U. unfold resolveAntoraResourceIds.
  destruct catalog as [c|]; [|apply never_disabled_ret].
  specialize (U c eq_refl).
  repeat (apply never_disabled_bind; [apply never_disabled_get | intros ?]).
  apply never_disabled_bind.
  - intros w e w' E. unfold lift in E. injection E as E _. exact (U _ _ _ _ _ E).
  - intros r. destruct (negb _); [|apply never_disabled_ret].
    apply never_disabled_bind; intros; apply never_disabled_get.
Qed.

End FragmentFacts.

(** ** The opt-in gate *)

Module GateFacts.

Lemma construct_undecided (st : Settings) (w : world) :
  antoraSupportSetting st = VUndefined ->
  construct st w = mkSession st true 0 0 [] w.
Proof. intros E. unfold construct. rewrite E. reflexivity. Qed.

Lemma length_remove_nth {A} (k : nat) (l : list A) :
  nth_error l k <> None -> S (length (remove_nth k l)) = length l.
Proof.
  revert k. induction l as [|x l IH]; intros k H.
  - destruct k; now elim H.
  - destruct k as [|k]; [reflexivity|]. simpl. f_equal. now apply IH.
Qed.

(** Once the listener is gone and no message is on screen, nothing
    moves. *)
Lemma run_settled (h : Host) (es : list event) (s : Session) :
  subscribed s = false -> pending s = [] -> run h s es = s.
Proof.
  intros Sub Pen. induction es as [|e es IH]; [reflexivity|].
  simpl. replace (step h s e) with s; [exact IH|].
  destruct e as [d | k a]; simpl.
  - unfold on_open. now rewrite Sub.
  - unfold on_answer. rewrite Pen. now destruct k.
Qed.

End GateFacts.

(* ================================================================== *)
(** * Part III: the properties of the specification *)

(** C1.  For a configuration file at [root/antora.yml], [root] being the
    absolute path of a list of names, the test of [getAntoraConfig] accepts
    a document path iff it reads [root/modules/<segment>/pages/<anything>]
    with a non-empty segment free of separators; it rejects
    [root/modules/pages/x] and [root/modules/m/notpages/x]; and
    [getAntoraConfig] returns the first candidate of the search that passes
    the test, or none when no candidate passes. *)
Theorem getAntoraConfig_first_applicable (names : list string) :
  Forall (fun n => Path.is_name n = true) names ->
  let root := Path.absolute names in
  (forall (doc : string) (antoraConfig : Uri),
     path antoraConfig = root ++ "/antora.yml" ->
     (applicable doc antoraConfig = true <->
      exists seg rest,
        seg <> "" /\ Str.lacks "/" seg = true /\
        doc = root ++ "/modules/" ++ seg ++ "/pages/" ++ rest) /\
     (forall x, Str.lacks "/" x = true ->
        applicable (root ++ "/modules/pages/" ++ x) antoraConfig = false) /\
     (forall m x, Str.lacks "/" m = true ->
        applicable (root ++ "/modules/" ++ m ++ "/notpages/" ++ x) antoraConfig
        = false)) /\
  (forall (h : Host) (textDocumentUri : Uri) (w : world),
     exists found w',
       getAntoraConfig h textDocumentUri w = (Returned found, w') /\
       match found with
       | Some antoraConfig =>
           exists before after,
             findFiles h = (before ++ antoraConfig :: after)%list /\
             applicable (fsPath textDocumentUri) antoraConfig = true /\
             Forall (fun c => applicable (fsPath textDocumentUri) c = false)
               before
       | None =>
           Forall (fun c => applicable (fsPath textDocumentUri) c = false)
             (findFiles h)
       end).
Proof.
  intros Hn root. split.
  - intros doc cfg Hp. split; [now apply LocatorFacts.applicable_iff|]. split.
    + intros x Hx. apply not_true_is_false. intros H.
      apply (LocatorFacts.applicable_iff names _ cfg Hn Hp) in H
        as (seg & rest & Hne & Hl & E).
      apply StrFacts.append_inv_head in E.
      change ("/modules/pages/" ++ x)
        with ("/modules/" ++ ("pages" ++ String "/" x)) in E.
      change ("/modules/" ++ seg ++ "/pages/" ++ rest)
        with ("/modules/" ++ (seg ++ String "/" ("pages/" ++ rest))) in E.
      apply StrFacts.append_inv_head in E.
      apply LocatorFacts.first_sep_unique in E as [_ ->];
        [discriminate | reflexivity | exact Hl].
    + intros m x Hm. apply not_true_is_false. intros H.
      apply (LocatorFacts.applicable_iff names _ cfg Hn Hp) in H
        as (seg & rest & Hne & Hl & E).
      apply StrFacts.append_inv_head in E.
      change ("/modules/" ++ m ++ "/notpages/" ++ x)
        with ("/modules/" ++ (m ++ String "/" ("notpages/" ++ x))) in E.
      change ("/modules/" ++ seg ++ "/pages/" ++ rest)
        with ("/modules/" ++ (seg ++ String "/" ("pages/" ++ rest))) in E.
      apply StrFacts.append_inv_head in E.
      apply LocatorFacts.first_sep_unique in E as [_ E];
        [discriminate | exact Hm | exact Hl].
  - intros h doc w.
    destruct (LocatorFacts.getAntoraConfig_returns h doc w) as [w' E].
    exists (find (applicable (fsPath doc)) (findFiles h)), w'.
    split; [exact E | apply LocatorFacts.find_first].
Qed.

Lemma getAntoraConfig_first_applicable_witness :
  Forall (fun n => Path.is_name n = true) ["home"; "docs"] /\
  (applicable "/home/docs/modules/ROOT/pages/index.adoc"
     (mkUri "/home/docs/antora.yml" "/home/docs/antora.yml") = true <->
   exists seg rest,
     seg <> "" /\ Str.lacks "/" seg = true /\
     "/home/docs/modules/ROOT/pages/index.adoc"
     = "/home/docs" ++ "/modules/" ++ seg ++ "/pages/" ++ rest).
Proof.
  assert (H : Forall (fun n => Path.is_name n = true) ["home"; "docs"])
    by (repeat constructor).
  split; [exact H|].
  exact (proj1 (proj1 (getAntoraConfig_first_applicable ["home"; "docs"] H)
                  "/home/docs/modules/ROOT/pages/index.adoc"
                  (mkUri "/home/docs/antora.yml" "/home/docs/antora.yml")
                  eq_refl)).
Defined.

Example applicable_page :
  applicable "/home/docs/modules/ROOT/pages/index.adoc"
    (mkUri "/home/docs/antora.yml" "/home/docs/antora.yml") = true.
Proof. reflexivity. Qed.

Example applicable_no_module :
  applicable "/home/docs/modules/pages/x"
    (mkUri "/home/docs/antora.yml" "/home/docs/antora.yml") = false.
Proof. reflexivity. Qed.

Example applicable_not_pages :
  applicable "/home/docs/modules/m/notpages/x"
    (mkUri "/home/docs/antora.yml" "/home/docs/antora.yml") = false.
Proof. reflexivity. Qed.

Example applicable_nested_pages :
  applicable "/home/docs/modules/pages/pages/x"
    (mkUri "/home/docs/antora.yml" "/home/docs/antora.yml") = true.
Proof. reflexivity. Qed.

(** C2.  When the persisted opt-in state is not enabled (the flag is not
    [true], or the setting is not [true]), [getContentCatalog] returns
    [undefined] and throws nothing, whatever configuration files the
    workspace holds. *)
Theorem getContentCatalog_disabled (h : Host) (textDocumentUri : Uri) (w : world) :
  antoraSupportSetting (settings h) <> VBool true \/
  enableAntoraSupport (settings h) <> VBool true ->
  getContentCatalog h textDocumentUri w = (Returned None, w).
Proof.
  intros H.
  unfold getContentCatalog, try_catch, getContentCatalog_try, createPlaybook, bind.
  rewrite FragmentFacts.getActiveAntoraConfig_run.
  assert (E : strict_eq (antoraSupportSetting (settings h)) (VBool true)
              && strict_eq (enableAntoraSupport (settings h)) (VBool true)
              = false).
  { apply not_true_is_false. intros T. apply andb_true_iff in T as [T1 T2].
    apply FragmentFacts.strict_eq_true in T1, T2. tauto. }
  rewrite E. reflexivity.
Qed.

(** C3.  When the aggregation or the classification throws [e] inside
    [getContentCatalog], the call writes one line to the console and
    throws [e] again, unless [e] is an [AntoraDisabledError]: then it
    returns [undefined] and writes nothing. *)
Theorem getContentCatalog_pipeline_failure (h : Host) (textDocumentUri : Uri)
  (w w1 : world) (playbook : Playbook) (e : error) :
  createPlaybook h textDocumentUri w = (Returned (Some playbook), w1) ->
  aggregateContent h playbook = Thrown e \/
  (exists contentAggregate,
     aggregateContent h playbook = Returned contentAggregate /\
     classifyContent h playbook contentAggregate = Thrown e) ->
  getContentCatalog h textDocumentUri w =
  if instanceof_AntoraDisabledError e then (Returned None, w1)
  else (Thrown e,
        logged ["Unable to create contentCatalog : " ++ error_toString e] w1).
Proof.
  intros P F.
  unfold getContentCatalog, try_catch, getContentCatalog_try, bind.
  rewrite P. unfold lift, getContentCatalog_catch.
  destruct F as [F | (agg & A & F)].
  - rewrite F. destruct (instanceof_AntoraDisabledError e); reflexivity.
  - rewrite A, F. destruct (instanceof_AntoraDisabledError e); reflexivity.
Qed.

Lemma getContentCatalog_disabled_witness :
  (antoraSupportSetting (settings (sample_host declined_settings
                                     (fun _ => Returned (mkContentAggregate []))))
   <> VBool true \/
   enableAntoraSupport (settings (sample_host declined_settings
                                    (fun _ => Returned (mkContentAggregate []))))
   <> VBool true) /\
  located (sample_host declined_settings
             (fun _ => Returned (mkContentAggregate []))) sample_page
  = Some sample_config /\
  getContentCatalog
    (sample_host declined_settings (fun _ => Returned (mkContentAggregate [])))
    sample_page initial_world
  = (Returned None, initial_world).
Proof.
  assert (H : antoraSupportSetting
                (settings (sample_host declined_settings
                             (fun _ => Returned (mkContentAggregate []))))
              <> VBool true \/
              enableAntoraSupport
                (settings (sample_host declined_settings
                             (fun _ => Returned (mkContentAggregate []))))
              <> VBool true)
    by (right; discriminate).
  split; [exact H|]. split; [reflexivity|].
  exact (getContentCatalog_disabled _ sample_page initial_world H).
Defined.

Lemma getContentCatalog_pipeline_failure_witness :
  getContentCatalog
    (sample_host enabled_settings
       (fun _ => Thrown (OtherError "Error" "no such branch")))
    sample_page initial_world
  = (Thrown (OtherError "Error" "no such branch"),
     World ["Found an Antora configuration file at /home/docs/antora.yml for the AsciiDoc document /home/docs/modules/ROOT/pages/index.adoc";
            "Unable to create contentCatalog : Error: no such branch"] 0).
Proof.
  exact (getContentCatalog_pipeline_failure
           (sample_host enabled_settings
              (fun _ => Thrown (OtherError "Error" "no such branch")))
           sample_page initial_world
           (World ["Found an Antora configuration file at /home/docs/antora.yml for the AsciiDoc document /home/docs/modules/ROOT/pages/index.adoc"] 0)
           (mkPlaybook [mkContentSource "/home" "HEAD" "docs"] [] [])
           (OtherError "Error" "no such branch")
           eq_refl (or_introl eq_refl)).
Defined.

(** C6.  [parseAntoraConfig] never throws.  When the configuration file
    it located cannot be read or parsed, it writes the failure to the
    console and returns an empty object; when it locates none, it returns
    an empty object as well. *)
Theorem parseAntoraConfig_never_raises (h : Host) (textDocumentUri : Uri) (w : world) :
  (exists doc w', parseAntoraConfig h textDocumentUri w = (Returned doc, w')) /\
  (forall antoraConfig w1 err,
     getAntoraConfig h textDocumentUri w = (Returned (Some antoraConfig), w1) ->
     readFileSync h (fsPath antoraConfig) = Thrown err \/
     (exists text,
        readFileSync h (fsPath antoraConfig) = Returned text /\
        yaml_load h text = Thrown err) ->
     parseAntoraConfig h textDocumentUri w
     = (Returned (VObj (next_stamp w1) []),
        World (console w1 ++ ["Unable to parse " ++ fsPath antoraConfig
                               ++ ", cause:" ++ error_toString err]%string)%list
          (S (next_stamp w1)))) /\
  (forall w1,
     getAntoraConfig h textDocumentUri w = (Returned None, w1) ->
     parseAntoraConfig h textDocumentUri w
     = (Returned (VObj (next_stamp w1) []), World (console w1) (S (next_stamp w1)))).
Proof.
  split; [apply FragmentFacts.parseAntoraConfig_returns|].
  split.
  - intros u w1 err G F. unfold parseAntoraConfig, bind. rewrite G.
    unfold try_catch, bind, lift.
    destruct F as [F | (text & R & F)].
    + rewrite F. reflexivity.
    + rewrite R, F. reflexivity.
  - intros w1 G. unfold parseAntoraConfig, bind. rewrite G. reflexivity.
Qed.

Lemma parseAntoraConfig_never_raises_witness :
  parseAntoraConfig (broken_host enabled_settings) sample_page initial_world
  = (Returned (VObj 0 []),
     World ["Found an Antora configuration file at /home/docs/antora.yml for the AsciiDoc document /home/docs/modules/ROOT/pages/index.adoc";
            "Unable to parse /home/docs/antora.yml, cause:YAMLException: unexpected end of the stream"] 1).
Proof.
  exact (proj1 (proj2 (parseAntoraConfig_never_raises
                         (broken_host enabled_settings) sample_page initial_world))
           sample_config
           (World ["Found an Antora configuration file at /home/docs/antora.yml for the AsciiDoc document /home/docs/modules/ROOT/pages/index.adoc"] 0)
           (OtherError "YAMLException" "unexpected end of the stream")
           eq_refl
           (or_intror (ex_intro _ "name: [" (conj eq_refl eq_refl)))).
Defined.

(** C9.  The guard [doc !== {}] of [getAttributes] compares the parsed
    document with an object allocated after it, so it always holds:
    [getAttributes] reads [doc.asciidoc.attributes] in every run and never
    reaches its else-branch.  When the configuration is absent or cannot be
    read or parsed, the parsed document is the empty object and the read
    throws a [TypeError]: no empty mapping is returned. *)
Theorem getAttributes_guard_always_holds (h : Host) (textDocumentUri : Uri) (w : world) :
  (forall doc w1,
     parseAntoraConfig h textDocumentUri w = (Returned doc, w1) ->
     negb (strict_eq doc (VObj (next_stamp w1) [])) = true) /\
  getAttributes h textDocumentUri w
  = (doc <- parseAntoraConfig h textDocumentUri ;;
     empty <- object_literal [] ;;
     asciidoc <- get doc "asciidoc" ;;
     get asciidoc "attributes") w /\
  (located h textDocumentUri = None \/
   (exists antoraConfig err,
      located h textDocumentUri = Some antoraConfig /\
      (readFileSync h (fsPath antoraConfig) = Thrown err \/
       exists text,
         readFileSync h (fsPath antoraConfig) = Returned text /\
         yaml_load h text = Thrown err)) ->
   exists stamp w1 w',
     parseAntoraConfig h textDocumentUri w = (Returned (VObj stamp []), w1) /\
     getAttributes h textDocumentUri w
     = (Thrown (TypeError
                  "Cannot read properties of undefined (reading 'attributes')"),
        w')).
Proof.
  assert (G : forall doc w1,
             parseAntoraConfig h textDocumentUri w = (Returned doc, w1) ->
             negb (strict_eq doc (VObj (next_stamp w1) [])) = true).
  { intros doc w1 P. apply negb_true_iff.
    exact (FragmentFacts.parseAntoraConfig_older _ _ _ _ _ P []). }
  split; [exact G|]. split.
  - unfold getAttributes, bind.
    destruct (parseAntoraConfig h textDocumentUri w) as [[doc|e] w1] eqn:P;
      [|reflexivity].
    unfold object_literal. rewrite (G _ _ eq_refl). reflexivity.
  - intros A.
    assert (P : exists stamp w1,
               parseAntoraConfig h textDocumentUri w = (Returned (VObj stamp []), w1)).
    { rewrite FragmentFacts.parseAntoraConfig_run. cbv zeta. unfold object_literal.
      destruct A as [-> | (u & err & -> & [F | (text & R & F)])].
      - eauto.
      - rewrite F. eauto.
      - rewrite R, F. eauto. }
    destruct P as (stamp & w1 & P). exists stamp, w1.
    eexists. split; [exact P|].
    unfold getAttributes, bind. rewrite P. unfold object_literal.
    rewrite (G _ _ P). reflexivity.
Qed.

Lemma getAttributes_guard_always_holds_witness :
  exists stamp w1 w',
    parseAntoraConfig (broken_host enabled_settings) sample_page initial_world
    = (Returned (VObj stamp []), w1) /\
    getAttributes (broken_host enabled_settings) sample_page initial_world
    = (Thrown (TypeError
                 "Cannot read properties of undefined (reading 'attributes')"),
       w').
Proof.
  apply (proj2 (proj2 (getAttributes_guard_always_holds
                         (broken_host enabled_settings) sample_page
                         initial_world))).
  right. exists sample_config, (OtherError "YAMLException" "unexpected end of the stream").
  split; [reflexivity|]. right. exists "name: [". split; reflexivity.
Defined.

Example getAttributes_sample :
  fst (getAttributes (sample_host enabled_settings (fun _ => Returned (mkContentAggregate [])))
         sample_page initial_world)
  = Returned (VObj 0 [("experimental", VStr "")]).
Proof. reflexivity. Qed.

Example getAttributes_outside :
  fst (getAttributes (sample_host enabled_settings (fun _ => Returned (mkContentAggregate [])))
         sample_outside initial_world)
  = Thrown (TypeError "Cannot read properties of undefined (reading 'attributes')").
Proof. reflexivity. Qed.

(** C10.  Nothing in the fragment throws [AntoraDisabledError]:
    [getActiveAntoraConfig] returns, with [undefined] when support is off,
    and no other operation throws the signal as long as the Antora
    libraries, which cannot name its class, do not.  So the [try] block of
    [getContentCatalog] never raises it and the clause that swallows it is
    dead: [getContentCatalog] behaves as if every caught error were logged
    and thrown again, and it returns [undefined] only when
    [createPlaybook] returned [undefined], which happens only when
    [getActiveAntoraConfig] did. *)
Theorem AntoraDisabledError_never_thrown (h : Host) (textDocumentUri : Uri) :
  libraries_unaware h ->
  (forall w, exists active w',
     getActiveAntoraConfig h textDocumentUri w = (Returned active, w')) /\
  (never_disabled (getAntoraConfig h textDocumentUri) /\
   never_disabled (antoraConfigExists h textDocumentUri) /\
   never_disabled (parseAntoraConfig h textDocumentUri) /\
   never_disabled (getAttributes h textDocumentUri) /\
   never_disabled (getActiveAntoraConfig h textDocumentUri) /\
   never_disabled (createPlaybook h textDocumentUri) /\
   never_disabled (getContentCatalog h textDocumentUri) /\
   (forall catalog, never_disabled (getSrc h textDocumentUri catalog)) /\
   (forall id catalog src family,
      (forall c, catalog = Some c -> catalog_unaware c) ->
      never_disabled (resolveAntoraResourceIds id catalog src family))) /\
  never_disabled (getContentCatalog_try h textDocumentUri) /\
  (forall w,
     getContentCatalog h textDocumentUri w
     = try_catch (getContentCatalog_try h textDocumentUri)
         (fun e =>
            console_log ("Unable to create contentCatalog : " ++ error_toString e) ;;;
            throw e) w) /\
  (forall w w',
     getContentCatalog h textDocumentUri w = (Returned None, w') ->
     createPlaybook h textDocumentUri w = (Returned None, w') /\
     getActiveAntoraConfig h textDocumentUri w = (Returned None, w')).
Proof.
  intros U.
  pose proof (FragmentFacts.never_disabled_try h textDocumentUri U) as T.
  split.
  { intros w. rewrite FragmentFacts.getActiveAntoraConfig_run.
    destruct (_ && _); [|eauto].
    rewrite FragmentFacts.getAntoraConfig_run. eauto. }
  split.
  { repeat split.
    - apply FragmentFacts.never_disabled_getAntoraConfig.
    - apply FragmentFacts.never_disabled_antoraConfigExists.
    - apply FragmentFacts.never_disabled_parseAntoraConfig.
    - apply FragmentFacts.never_disabled_getAttributes.
    - apply FragmentFacts.never_disabled_getActiveAntoraConfig.
    - apply FragmentFacts.never_disabled_createPlaybook.
    - apply FragmentFacts.never_disabled_getContentCatalog.
    - intros c. apply FragmentFacts.never_disabled_getSrc.
    - intros id c src family. apply FragmentFacts.never_disabled_resolveAntoraResourceIds. }
  split; [exact T|]. split.
  - intros w. unfold getContentCatalog, try_catch.
    destruct (getContentCatalog_try h textDocumentUri w) as [[c|e] w1] eqn:E;
      [reflexivity|].
    unfold getContentCatalog_catch. now rewrite (T _ _ _ E).
  - intros w w'. unfold getContentCatalog, try_catch.
    destruct (getContentCatalog_try h textDocumentUri w) as [[c|e] w1] eqn:E.
    + intros X. injection X as -> ->.
      revert E. unfold getContentCatalog_try, bind.
      destruct (createPlaybook h textDocumentUri w) as [[[pb|]|e] w2] eqn:P;
        try discriminate.
      * unfold lift. destruct (aggregateContent h pb); [|discriminate].
        destruct (classifyContent h pb a); discriminate.
      * intros X. injection X as ->. split; [reflexivity|].
        revert P. unfold createPlaybook, bind.
        destruct (getActiveAntoraConfig h textDocumentUri w) as [[[cfg|]|e] w3];
          try discriminate.
        -- destruct (getWorkspaceFolder h cfg); discriminate.
        -- intros X. now injection X as ->.
    + unfold getContentCatalog_catch. rewrite (T _ _ _ E).
      unfold bind, console_log, throw. discriminate.
Qed.

Lemma AntoraDisabledError_never_thrown_witness :
  libraries_unaware
    (sample_host declined_settings (fun _ => Thrown (OtherError "Error" "no such branch"))) /\
  never_disabled
    (getContentCatalog_try
       (sample_host declined_settings (fun _ => Thrown (OtherError "Error" "no such branch")))
       sample_page).
Proof.
  assert (U : libraries_unaware
                (sample_host declined_settings
                   (fun _ => Thrown (OtherError "Error" "no such branch")))).
  { split.
    - intros pb e E. simpl in E. injection E as <-. reflexivity.
    - intros pb agg e E. discriminate. }
  split; [exact U|].
  exact (proj1 (proj2 (proj2 (AntoraDisabledError_never_thrown _ sample_page U)))).
Defined.

(** C8.  When [getActiveAntoraConfig] yields a configuration file and the
    file lies in a workspace folder, [createPlaybook] builds a playbook
    with exactly one content source: its url is the root path of the
    folder, its branches are ['HEAD'], its start path is the path from
    that root to the directory of the configuration file; the runtime and
    site options are empty.  In particular, for a configuration file
    [root/s1/.../sk/antora.yml] the start path is [s1/.../sk].  When
    [getActiveAntoraConfig] yields nothing, there is no playbook. *)
Theorem createPlaybook_content_source (h : Host) (textDocumentUri : Uri) (w : world) :
  (forall config w1 folder,
     getActiveAntoraConfig h textDocumentUri w = (Returned (Some config), w1) ->
     getWorkspaceFolder h config = Some folder ->
     createPlaybook h textDocumentUri w
     = (Returned
          (Some (mkPlaybook
                   [mkContentSource (fsPath (uri folder)) "HEAD"
                      (Path.relative (cwd h) (fsPath (uri folder))
                         (Path.dirname (fsPath config)))]
                   [] [])),
        w1)) /\
  (forall config w1 folder root sub,
     getActiveAntoraConfig h textDocumentUri w = (Returned (Some config), w1) ->
     getWorkspaceFolder h config = Some folder ->
     root <> [] ->
     Forall (fun n => Path.is_name n = true) (root ++ sub)%list ->
     fsPath (uri folder) = Path.absolute root ->
     fsPath config = Path.absolute (root ++ sub) ++ "/antora.yml" ->
     createPlaybook h textDocumentUri w
     = (Returned
          (Some (mkPlaybook
                   [mkContentSource (Path.absolute root) "HEAD"
                      (String.concat "/" sub)]
                   [] [])),
        w1)) /\
  (forall w1,
     getActiveAntoraConfig h textDocumentUri w = (Returned None, w1) ->
     createPlaybook h textDocumentUri w = (Returned None, w1)).
Proof.
  assert (G : forall config w1 folder,
     getActiveAntoraConfig h textDocumentUri w = (Returned (Some config), w1) ->
     getWorkspaceFolder h config = Some folder ->
     createPlaybook h textDocumentUri w
     = (Returned
          (Some (mkPlaybook
                   [mkContentSource (fsPath (uri folder)) "HEAD"
                      (Path.relative (cwd h) (fsPath (uri folder))
                         (Path.dirname (fsPath config)))]
                   [] [])),
        w1)).
  { intros config w1 folder A F. unfold createPlaybook, bind.
    rewrite A, F. reflexivity. }
  split; [exact G|]. split.
  - intros config w1 folder root sub A F Hne Hn Er Ec.
    rewrite (G _ _ _ A F), Er, Ec.
    change "/antora.yml" with (String Path.sep "antora.yml").
    rewrite (PathFacts.dirname_child _ "antora.yml" Hn eq_refl).
    rewrite <- (PathFacts.relative_descendant (cwd h) root sub Hne Hn).
    destruct (root ++ sub)%list eqn:E; [|reflexivity].
    apply app_eq_nil in E as [-> _]. now elim Hne.
  - intros w1 A. unfold createPlaybook, bind. rewrite A. reflexivity.
Qed.

Lemma createPlaybook_content_source_witness :
  createPlaybook
    (sample_host enabled_settings (fun _ => Returned (mkContentAggregate [])))
    sample_page initial_world
  = (Returned (Some (mkPlaybook [mkContentSource "/home" "HEAD" "docs"] [] [])),
     World ["Found an Antora configuration file at /home/docs/antora.yml for the AsciiDoc document /home/docs/modules/ROOT/pages/index.adoc"] 0).
Proof.
  refine (proj1 (proj2 (createPlaybook_content_source
                          (sample_host enabled_settings
                             (fun _ => Returned (mkContentAggregate [])))
                          sample_page initial_world))
            sample_config _ (mkWorkspaceFolder (mkUri "/home" "/home"))
            ["home"] ["docs"] eq_refl eq_refl _ _ eq_refl eq_refl).
  - discriminate.
  - repeat constructor.
Defined.


Example resolveAntoraResourceIds_other_family :
  fst (resolveAntoraResourceIds "index.adoc" (Some sample_catalog)
         (VObj 7 sample_src) "nav" initial_world)
  = Returned VUndefined.
Proof. reflexivity. Qed.

(** C4.  [getSrc] always returns: it returns an empty object when there
    is no catalog, when no configuration file is located, and when the
    [try] block throws, in particular when the lookup of the catalog
    throws; nothing is propagated.  When the catalog answers the key made
    of the [name] and [version] of the configuration and of the path of
    the document relative to the configuration directory with a file
    that has a source descriptor, [getSrc] returns the component, version,
    module, family and relative path of that descriptor. *)
Theorem getSrc_empty_or_projection (h : Host) (textDocumentUri : Uri) (w : world) :
  (forall contentCatalog, exists v w',
     getSrc h textDocumentUri contentCatalog w = (Returned v, w')) /\
  (exists v w',
     getSrc h textDocumentUri None w = (Returned v, w') /\ is_empty_object v) /\
  (forall contentCatalog w1,
     getAntoraConfig h textDocumentUri w = (Returned None, w1) ->
     exists v w',
       getSrc h textDocumentUri contentCatalog w = (Returned v, w') /\
       is_empty_object v) /\
  (forall catalog config w1 doc w2 e w3,
     getAntoraConfig h textDocumentUri w = (Returned (Some config), w1) ->
     parseAntoraConfig h textDocumentUri w1 = (Returned doc, w2) ->
     getSrc_try h textDocumentUri doc (Path.dirname (fsPath config)) catalog
       (World (console w2) (S (next_stamp w2))) = (Thrown e, w3) ->
     exists v,
       getSrc h textDocumentUri (Some catalog) w
       = (Returned v, World (console w3 ++ [("Unable to return src : "
                                             ++ error_toString e)%string])%list
                        (S (next_stamp w3))) /\
       is_empty_object v) /\
  (forall catalog config w1 doc w2 e,
     getAntoraConfig h textDocumentUri w = (Returned (Some config), w1) ->
     parseAntoraConfig h textDocumentUri w1 = (Returned doc, w2) ->
     doc <> VUndefined -> doc <> VNull ->
     getByPath catalog
       (mkPathKey (prop doc "name") (prop doc "version")
          (Path.relative (cwd h) (Path.dirname (fsPath config))
             (path textDocumentUri)))
     = Thrown e ->
     exists v w',
       getSrc h textDocumentUri (Some catalog) w = (Returned v, w') /\
       is_empty_object v) /\
  (forall catalog config w1 doc w2 i fprops j sprops,
     getAntoraConfig h textDocumentUri w = (Returned (Some config), w1) ->
     parseAntoraConfig h textDocumentUri w1 = (Returned doc, w2) ->
     doc <> VUndefined -> doc <> VNull ->
     getByPath catalog
       (mkPathKey (prop doc "name") (prop doc "version")
          (Path.relative (cwd h) (Path.dirname (fsPath config))
             (path textDocumentUri)))
     = Returned (VObj i fprops) ->
     lookup "src" fprops = VObj j sprops ->
     getSrc h textDocumentUri (Some catalog) w
     = (Returned
          (VObj (S (next_stamp w2))
             [("component", lookup "component" sprops);
              ("version", lookup "version" sprops);
              ("module", lookup "module" sprops);
              ("family", lookup "family" sprops);
              ("relative", lookup "relative" sprops)]),
        World (console w2) (S (S (next_stamp w2))))).
Proof.
  assert (R : forall catalog config w1 doc w2,
     getAntoraConfig h textDocumentUri w = (Returned (Some config), w1) ->
     parseAntoraConfig h textDocumentUri w1 = (Returned doc, w2) ->
     getSrc h textDocumentUri (Some catalog) w
     = try_catch
         (getSrc_try h textDocumentUri doc (Path.dirname (fsPath config)) catalog)
         (fun e =>
            console_log ("Unable to return src : " ++ error_toString e) ;;;
            object_literal [])
         (World (console w2) (S (next_stamp w2)))).
  { intros catalog config w1 doc w2 G P. unfold getSrc, bind.
    rewrite G, P. unfold object_literal.
    now rewrite (FragmentFacts.parseAntoraConfig_older _ _ _ _ _ P []). }
  assert (K : forall doc, doc <> VUndefined -> doc <> VNull ->
     forall k w0, get doc k w0 = (Returned (prop doc k), w0)).
  { intros doc H1 H2 k w0. destruct doc; try reflexivity; contradiction. }
  split; [|split; [|split; [|split; [|split]]]].
  - intros contentCatalog. unfold getSrc, bind.
    rewrite FragmentFacts.getAntoraConfig_run.
    destruct (FragmentFacts.parseAntoraConfig_returns h textDocumentUri
                (logged [located_line h textDocumentUri] w)) as (doc & w2 & P).
    rewrite P. unfold object_literal.
    destruct (located h textDocumentUri); [|eauto].
    destruct (negb _), contentCatalog; eauto.
    unfold try_catch.
    destruct (getSrc_try _ _ _ _ _ _) as [[v|e] w3]; [eauto|].
    unfold bind, console_log. eauto.
  - unfold getSrc, bind.
    rewrite FragmentFacts.getAntoraConfig_run.
    destruct (FragmentFacts.parseAntoraConfig_returns h textDocumentUri
                (logged [located_line h textDocumentUri] w)) as (doc & w2 & P).
    rewrite P. unfold object_literal, is_empty_object.
    destruct (located h textDocumentUri); [|eauto].
    destruct (negb _); eauto.
  - intros contentCatalog w1 G. unfold getSrc, bind. rewrite G.
    destruct (FragmentFacts.parseAntoraConfig_returns h textDocumentUri w1)
      as (doc & w2 & P).
    rewrite P. unfold object_literal, is_empty_object. eauto.
  - intros catalog config w1 doc w2 e w3 G P T.
    rewrite (R _ _ _ _ _ G P). unfold try_catch. rewrite T.
    unfold is_empty_object. eexists. split; [reflexivity | eauto].
  - intros catalog config w1 doc w2 e G P H1 H2 L.
    rewrite (R _ _ _ _ _ G P). unfold try_catch, getSrc_try, bind.
    rewrite !(K _ H1 H2). unfold lift. rewrite L.
    unfold is_empty_object. eexists. eexists. split; [reflexivity | eauto].
  - intros catalog config w1 doc w2 i fprops j sprops G P H1 H2 L S.
    rewrite (R _ _ _ _ _ G P). unfold try_catch, getSrc_try, bind.
    rewrite !(K _ H1 H2). unfold lift. rewrite L.
    unfold src_field, bind. simpl. rewrite S. reflexivity.
Qed.

Lemma getSrc_empty_or_projection_witness :
  getSrc (sample_host enabled_settings (fun _ => Returned (mkContentAggregate [])))
    sample_page (Some sample_catalog) initial_world
  = (Returned
       (VObj 4 [("component", VStr "docs"); ("version", VStr "1.0");
                ("module", VStr "ROOT"); ("family", VStr "page");
                ("relative", VStr "index.adoc")]),
     World ["Found an Antora configuration file at /home/docs/antora.yml for the AsciiDoc document /home/docs/modules/ROOT/pages/index.adoc";
            "Found an Antora configuration file at /home/docs/antora.yml for the AsciiDoc document /home/docs/modules/ROOT/pages/index.adoc"] 5).
Proof.
  refine (proj2 (proj2 (proj2 (proj2 (proj2
            (getSrc_empty_or_projection
               (sample_host enabled_settings
                  (fun _ => Returned (mkContentAggregate [])))
               sample_page initial_world)))))
            sample_catalog sample_config _ _ _ 0 [("src", VObj 1 sample_src)]
            1 sample_src eq_refl eq_refl _ _ eq_refl eq_refl);
    discriminate.
Defined.

Example getSrc_outside :
  fst (getSrc (sample_host enabled_settings (fun _ => Returned (mkContentAggregate [])))
         sample_outside (Some sample_catalog) initial_world)
  = Returned (VObj 1 []).
Proof. reflexivity. Qed.

Example getSrc_unknown_page :
  fst (getSrc (sample_host enabled_settings (fun _ => Returned (mkContentAggregate [])))
         (mkUri "/home/docs/modules/ROOT/pages/other.adoc"
                "/home/docs/modules/ROOT/pages/other.adoc")
         (Some sample_catalog) initial_world)
  = Returned (VObj 4 []).
Proof. reflexivity. Qed.

(** C7.  The listener is removed at the end of a run only, after the
    awaits on the two updates.  Start undecided and open a page: its
    message is shown and the user answers "Yes".  A second page opened
    before the updates of the first run are written starts a run of its
    own, whose message is shown after the answer: the message is shown
    again.  When the user answers it with "No, thanks", the setting ends
    up [false] although the completion provider is registered: a later
    check does not report enabled. *)
Theorem optin_message_after_yes :
  let h := sample_host undecided_settings
             (fun _ => Returned (mkContentAggregate [])) in
  let answered :=
    live_run h VUndefined (live_construct undecided_settings initial_world)
      [Opened sample_page; Searched 0; Answered 0 (Some yesAnswer)] in
  let asked_again := live_run h VUndefined answered [Opened sample_page2; Searched 1] in
  let finished :=
    live_run h VUndefined asked_again
      [Updated 0; Updated 0;
       Answered 0 (Some noAnswer); Updated 0; Updated 0] in
  live_prompts answered = 1 /\
  live_subscribed answered = true /\
  live_prompts asked_again = 2 /\
  live_runs asked_again
  = [mkRun sample_page (UpdatingState (Some yesAnswer)); mkRun sample_page2 Asking] /\
  live_providers finished = 1 /\
  live_runs finished = [] /\
  live_persisted finished = mkSettings (VBool true) (VBool false) /\
  fst (getActiveAntoraConfig (live_host h finished) sample_page initial_world)
  = Returned None.
Proof. cbv zeta. repeat split. Qed.

(** A document opened while the first message is still unanswered starts
    a second run of the listener, with a message of its own. *)
Example second_message_before_answer :
  prompts
    (run (sample_host undecided_settings (fun _ => Returned (mkContentAggregate [])))
       (construct undecided_settings initial_world)
       [OpenTextDocument sample_page; OpenTextDocument sample_page])
  = 2.
Proof. reflexivity. Qed.

(* ================================================================== *)
(** * Part IV: further properties of the code *)

(** ** The locator *)

Module LocatorMore.
Import Str StrFacts.

Lemma lacks_slice (c : ascii) (s : string) (n : nat) :
  lacks c s = true -> lacks c (slice s n) = true.
Proof.
  revert s. induction n as [|n IH]; intros s H; [now destruct s|].
  destruct s as [|d s]; [reflexivity|].
  simpl in H. apply andb_true_iff in H as [_ H]. simpl. now apply IH.
Qed.

Lemma matches_needs_separator (s : string) :
  Regex.matches pages_pattern s = true -> lacks "/" s = false.
Proof.
  intros H. apply LocatorFacts.matches_pages_pattern in H
    as (seg & rest & _ & _ & ->). reflexivity.
Qed.

Lemma find_existsb {A} (f : A -> bool) (l : list A) :
  match find f l with Some _ => true | None => false end = existsb f l.
Proof.
  induction l as [|a l IH]; simpl; [reflexivity|].
  destruct (f a); [reflexivity | exact IH].
Qed.

Lemma absolute_sep_head (l : list string) (x : string) :
  exists z, Path.absolute l ++ String Path.sep x = String Path.sep z.
Proof. destruct l; simpl; eauto. Qed.

(** Two lists of names that spell prefixes of one path are themselves
    comparable. *)
Lemma absolute_comparable (a : list string) :
  forall (b : list string) (x y : string),
    Forall (fun n => lacks Path.sep n = true) a ->
    Forall (fun n => lacks Path.sep n = true) b ->
    Path.absolute a ++ String Path.sep x = Path.absolute b ++ String Path.sep y ->
    (exists t, b = (a ++ t)%list) \/ (exists t, a = (b ++ t)%list).
Proof.
  induction a as [|n a IH]; intros b x y Ha Hb E.
  - left. now exists b.
  - destruct b as [|m b]; [right; now exists (n :: a)|].
    inversion Ha as [|? ? Hn Ha']; inversion Hb as [|? ? Hm Hb']; subst.
    simpl in E. injection E as E. rewrite !append_assoc in E.
    destruct (absolute_sep_head a x) as [z Ez].
    destruct (absolute_sep_head b y) as [z' Ez'].
    rewrite Ez, Ez' in E.
    apply LocatorFacts.first_sep_unique in E as [-> ->]; try assumption.
    rewrite <- Ez' in Ez.
    destruct (IH _ _ _ Ha' Hb' Ez) as [[t ->] | [t ->]].
    + left. now exists t.
    + right. now exists t.
Qed.

Lemma page_path_as_absolute (names : list string) (seg rest : string) :
  Path.absolute names ++ "/modules/" ++ seg ++ "/pages/" ++ rest
  = Path.absolute (names ++ ["modules"; seg])
    ++ String Path.sep ("pages/" ++ rest).
Proof.
  rewrite PathFacts.absolute_app. simpl.
  rewrite append_nil_r, append_assoc. reflexivity.
Qed.

Lemma tails_overlap (l1 l2 t : list string) (m s1 s2 : string) :
  (l2 ++ [m; s2] = (l1 ++ [m; s1]) ++ t)%list ->
  l1 = l2 \/ exists u, l2 = (l1 ++ m :: u)%list.
Proof.
  rewrite <- app_assoc. intros E. symmetry in E.
  apply app_eq_app in E as [l [[E1 E2] | [E1 E2]]].
  - destruct l as [|a l].
    + left. now rewrite app_nil_r in E1.
    + exfalso. simpl in E2.
      assert (L : length [m; s2] = length (a :: l ++ [m; s1] ++ t)%list)
        by now rewrite E2.
      simpl in L. rewrite length_app in L. simpl in L. lia.
  - destruct l as [|a l].
    + left. now rewrite app_nil_r in E1.
    + right. simpl in E2. injection E2 as <- _. now exists l.
Qed.

(** Components that both claim a document are the same or nested. *)
Lemma claimed_twice (names names' : list string) (doc : string) (c c' : Uri) :
  root_names c names -> root_names c' names' ->
  applicable doc c = true -> applicable doc c' = true ->
  names = names' \/
  (exists below, names' = (names ++ "modules" :: below)%list) \/
  (exists below, names = (names' ++ "modules" :: below)%list).
Proof.
  intros [Hn Hp] [Hn' Hp'] A A'.
  apply (LocatorFacts.applicable_iff names doc c Hn Hp) in A
    as (seg & rest & _ & Ls & E).
  apply (LocatorFacts.applicable_iff names' doc c' Hn' Hp') in A'
    as (seg' & rest' & _ & Ls' & E').
  rewrite page_path_as_absolute in E, E'. rewrite E in E'.
  assert (F : forall l s, Forall (fun n => Path.is_name n = true) l ->
                lacks "/" s = true ->
                Forall (fun n => lacks Path.sep n = true) (l ++ ["modules"; s])).
  { intros l s Hl Hs. apply Forall_app. split.
    - now apply PathFacts.names_lack_sep.
    - repeat constructor. exact Hs. }
  apply absolute_comparable in E' as [[t Et] | [t Et]]; auto.
  - apply tails_overlap in Et as [-> | [u ->]]; eauto.
  - apply tails_overlap in Et as [-> | [u ->]]; eauto.
Qed.

Lemma root_names_split (c : Uri) (names : list string) :
  root_names c names ->
  Path.split (path c) = ("" :: names ++ ["antora.yml"])%list.
Proof.
  intros [Hn ->].
  change "/antora.yml" with (Path.absolute ["antora.yml"]).
  rewrite <- PathFacts.absolute_app. apply PathFacts.split_absolute.
  apply Forall_app. split; [now apply PathFacts.names_lack_sep|].
  now repeat constructor.
Qed.

(** A configuration file has one list of names. *)
Lemma root_names_inj (c : Uri) (names names' : list string) :
  root_names c names -> root_names c names' -> names = names'.
Proof.
  intros R R'. apply root_names_split in R, R'. rewrite R in R'.
  injection R' as E. now apply app_inv_tail in E.
Qed.

Lemma find_In {A} (f : A -> bool) (l : list A) (x : A) :
  find f l = Some x -> In x l /\ f x = true.
Proof. apply find_some. Qed.

(** Joining a directory with the path down to a descendant. *)
Lemma join_descendant (l sub : list string) :
  l <> [] -> Forall (fun n => Path.is_name n = true) (l ++ sub)%list ->
  Path.join (Path.absolute l) (String.concat "/" sub) = Path.absolute (l ++ sub).
Proof.
  intros Hne H. unfold Path.join.
  destruct (Path.absolute l) as [|c p] eqn:A.
  { destruct l; [now elim Hne | discriminate]. }
  destruct sub as [|x sub].
  - simpl String.concat. cbv iota. rewrite <- A, app_nil_r.
    rewrite app_nil_r in H. now apply PathFacts.normalize_absolute.
  - pose proof (PathFacts.concat_absolute x sub) as C.
    destruct (String.concat "/" (x :: sub)) as [|d r] eqn:E.
    + apply Forall_app in H as [_ H]. inversion H as [|? ? Hx _]; subst.
      apply PathFacts.is_name_inv in Hx as (_ & Hx & _).
      destruct x; [now elim Hx|]. destruct sub; discriminate.
    + change (String c p ++ "/" ++ String d r)
        with (String c p ++ String Path.sep (String d r)).
      rewrite C, <- A, <- PathFacts.absolute_app.
      apply PathFacts.normalize_absolute; [now destruct l | exact H].
Qed.

End LocatorMore.

(** X1.  [antoraConfigExists] never throws, and in a workspace whose
    configuration files are [root/antora.yml] with [root] in normal form
    it answers [true] exactly when the document reads
    [root/modules/<segment>/pages/<anything>] for the root of one of the
    files found. *)
Theorem antoraConfigExists_iff_under_pages (h : Host) (textDocumentUri : Uri)
  (w : world) :
  (forall c, In c (findFiles h) -> well_placed c) ->
  exists answer,
    antoraConfigExists h textDocumentUri w
    = (Returned answer, logged [located_line h textDocumentUri] w) /\
    (answer = true <->
     exists c names seg rest,
       In c (findFiles h) /\ root_names c names /\
       seg <> "" /\ Str.lacks "/" seg = true /\
       fsPath textDocumentUri
       = Path.absolute names ++ "/modules/" ++ seg ++ "/pages/" ++ rest).
Proof.
  intros W.
  exists (existsb (applicable (fsPath textDocumentUri)) (findFiles h)). split.
  - unfold antoraConfigExists, bind.
    rewrite FragmentFacts.getAntoraConfig_run. unfold located.
    now rewrite <- LocatorMore.find_existsb.
  - rewrite existsb_exists. split.
    + intros (c & I & A). destruct (W c I) as [names [Hn Hp]].
      destruct (proj1 (LocatorFacts.applicable_iff names _ c Hn Hp) A)
        as (seg & rest & Hne & Hl & E).
      exists c, names, seg, rest. repeat split; assumption.
    + intros (c & names & seg & rest & I & [Hn Hp] & Hne & Hl & E).
      exists c. split; [exact I|].
      apply (LocatorFacts.applicable_iff names _ c Hn Hp). eauto.
Qed.

Lemma antoraConfigExists_iff_under_pages_witness :
  (forall c, In c [sample_config; second_config] -> well_placed c) /\
  exists answer,
    antoraConfigExists (two_component_host [sample_config; second_config])
      sample_page initial_world
    = (Returned answer,
       logged [located_line (two_component_host [sample_config; second_config])
                 sample_page] initial_world) /\
    (answer = true <->
     exists c names seg rest,
       In c [sample_config; second_config] /\ root_names c names /\
       seg <> "" /\ Str.lacks "/" seg = true /\
       fsPath sample_page
       = Path.absolute names ++ "/modules/" ++ seg ++ "/pages/" ++ rest).
Proof.
  assert (W : forall c, In c [sample_config; second_config] -> well_placed c).
  { intros c [<- | [<- | []]].
    - exists ["home"; "docs"]. split; [repeat constructor | reflexivity].
    - exists ["home"; "api"]. split; [repeat constructor | reflexivity]. }
  split; [exact W|].
  exact (antoraConfigExists_iff_under_pages
           (two_component_host [sample_config; second_config])
           sample_page initial_world W).
Defined.

(** X2.  A document whose file-system path holds no forward slash, as
    the paths of Windows do, is claimed by no configuration file at all:
    [getAntoraConfig] returns [undefined] and [antoraConfigExists]
    [false], whatever the workspace holds. *)
Theorem getAntoraConfig_needs_forward_slashes (h : Host) (textDocumentUri : Uri)
  (w : world) :
  Str.lacks "/" (fsPath textDocumentUri) = true ->
  (forall c, applicable (fsPath textDocumentUri) c = false) /\
  fst (getAntoraConfig h textDocumentUri w) = Returned None /\
  fst (antoraConfigExists h textDocumentUri w) = Returned false.
Proof.
  intros L.
  assert (N : forall c, applicable (fsPath textDocumentUri) c = false).
  { intros c. unfold applicable. apply andb_false_iff. right.
    apply not_true_is_false. intros M.
    apply LocatorMore.matches_needs_separator in M.
    now rewrite LocatorMore.lacks_slice in M. }
  assert (F : located h textDocumentUri = None).
  { unfold located. induction (findFiles h) as [|c l IH]; [reflexivity|].
    simpl. now rewrite N. }
  split; [exact N|]. split.
  - rewrite FragmentFacts.getAntoraConfig_run. simpl. now rewrite F.
  - unfold antoraConfigExists, bind.
    rewrite FragmentFacts.getAntoraConfig_run. now rewrite F.
Qed.

Lemma getAntoraConfig_needs_forward_slashes_witness :
  Str.lacks "/" "c:\docs\modules\ROOT\pages\index.adoc" = true /\
  fst (getAntoraConfig
         (two_component_host [mkUri "/c:/docs/antora.yml" "c:\docs\antora.yml"])
         (mkUri "/c:/docs/modules/ROOT/pages/index.adoc"
                "c:\docs\modules\ROOT\pages\index.adoc")
         initial_world)
  = Returned None.
Proof.
  split; [reflexivity|].
  exact (proj1 (proj2 (getAntoraConfig_needs_forward_slashes
                         (two_component_host
                            [mkUri "/c:/docs/antora.yml" "c:\docs\antora.yml"])
                         (mkUri "/c:/docs/modules/ROOT/pages/index.adoc"
                                "c:\docs\modules\ROOT\pages\index.adoc")
                         initial_world eq_refl))).
Defined.

(** X3.  Two configuration files in normal form that both pass the test
    of [getAntoraConfig] for one document have the same directory, or the
    directory of one lies in the [modules] directory of the other. *)
Theorem applicable_twice_means_nested (names names' : list string)
  (doc : string) (c c' : Uri) :
  root_names c names -> root_names c' names' ->
  applicable doc c = true -> applicable doc c' = true ->
  names = names' \/
  (exists below, names' = (names ++ "modules" :: below)%list) \/
  (exists below, names = (names' ++ "modules" :: below)%list).
Proof. apply LocatorMore.claimed_twice. Qed.

Lemma applicable_twice_means_nested_witness :
  ["home"; "docs"] = ["home"; "docs"; "modules"; "ROOT"; "pages"; "inner"] \/
  (exists below,
     ["home"; "docs"; "modules"; "ROOT"; "pages"; "inner"]
     = (["home"; "docs"] ++ "modules" :: below)%list) \/
  (exists below,
     ["home"; "docs"]
     = (["home"; "docs"; "modules"; "ROOT"; "pages"; "inner"]
        ++ "modules" :: below)%list).
Proof.
  refine (applicable_twice_means_nested
            ["home"; "docs"]
            ["home"; "docs"; "modules"; "ROOT"; "pages"; "inner"]
            "/home/docs/modules/ROOT/pages/inner/modules/m/pages/a.adoc"
            sample_config
            (mkUri "/home/docs/modules/ROOT/pages/inner/antora.yml"
                   "/home/docs/modules/ROOT/pages/inner/antora.yml")
            _ _ eq_refl eq_refl);
    (split; [repeat constructor | reflexivity]).
Defined.

(** X4.  In a workspace whose configuration files are in normal form and
    of which none lies in the [modules] directory of another, the order
    in which the search lists the files has no influence on
    [getAntoraConfig]: two orders give configuration files of the same
    path, or none both times. *)
Theorem getAntoraConfig_order_irrelevant (h h' : Host) (textDocumentUri : Uri)
  (w w' : world) :
  Permutation (findFiles h) (findFiles h') ->
  (forall c, In c (findFiles h) -> well_placed c) ->
  (forall c c', In c (findFiles h) -> In c' (findFiles h) -> ~ nested c c') ->
  match fst (getAntoraConfig h textDocumentUri w),
        fst (getAntoraConfig h' textDocumentUri w') with
  | Returned (Some c), Returned (Some c') => path c = path c'
  | Returned None, Returned None => True
  | _, _ => False
  end.
Proof.
  intros P W N. rewrite !FragmentFacts.getAntoraConfig_run. simpl.
  unfold located.
  destruct (find _ (findFiles h)) as [c|] eqn:F;
    destruct (find _ (findFiles h')) as [c'|] eqn:F'.
  - apply find_some in F as [I A], F' as [I' A'].
    apply (Permutation_in _ (Permutation_sym P)) in I'.
    destruct (W c I) as [names R], (W c' I') as [names' R'].
    destruct (LocatorMore.claimed_twice names names' _ c c' R R' A A')
      as [-> | [[below ->] | [below ->]]].
    + destruct R as [_ ->], R' as [_ ->]. reflexivity.
    + elim (N c c' I I'). now exists names, below.
    + elim (N c' c I' I). now exists names', below.
  - apply find_some in F as [I A].
    apply (Permutation_in _ P) in I.
    pose proof (find_none _ _ F' _ I) as X. congruence.
  - apply find_some in F' as [I A].
    apply (Permutation_in _ (Permutation_sym P)) in I.
    pose proof (find_none _ _ F _ I) as X. congruence.
  - exact I.
Qed.

Lemma getAntoraConfig_order_irrelevant_witness :
  match fst (getAntoraConfig (two_component_host [sample_config; second_config])
               sample_page initial_world),
        fst (getAntoraConfig (two_component_host [second_config; sample_config])
               sample_page initial_world) with
  | Returned (Some c), Returned (Some c') => path c = path c'
  | Returned None, Returned None => True
  | _, _ => False
  end.
Proof.
  assert (R1 : root_names sample_config ["home"; "docs"])
    by (split; [repeat constructor | reflexivity]).
  assert (R2 : root_names second_config ["home"; "api"])
    by (split; [repeat constructor | reflexivity]).
  apply (getAntoraConfig_order_irrelevant
           (two_component_host [sample_config; second_config])
           (two_component_host [second_config; sample_config])).
  - apply perm_swap.
  - intros c [<- | [<- | []]]; eexists; eassumption.
  - intros c c' I I' (names & below & R & R').
    destruct I as [<- | [<- | []]]; destruct I' as [<- | [<- | []]];
      first [ pose proof (LocatorMore.root_names_inj _ _ _ R R1) as E
            | pose proof (LocatorMore.root_names_inj _ _ _ R R2) as E ];
      subst names;
      first [ pose proof (LocatorMore.root_names_inj _ _ _ R' R1) as E
            | pose proof (LocatorMore.root_names_inj _ _ _ R' R2) as E ];
      discriminate E.
Defined.

(** ** The parser and the resolvers *)

Module ResolverMore.

Lemma bind_returned {A B} (m : M A) (k : A -> M B) (w w' : world) (b : B) :
  bind m k w = (Returned b, w') ->
  exists a w1, m w = (Returned a, w1) /\ k a w1 = (Returned b, w').
Proof.
  unfold bind. destruct (m w) as [[a|e] w1]; [eauto | discriminate].
Qed.

(** Reading a property of anything but [undefined] and [null] returns. *)
Lemma get_defined (v : value) (k : string) (w : world) :
  v <> VUndefined -> v <> VNull -> get v k w = (Returned (prop v k), w).
Proof. intros H1 H2. destruct v; try reflexivity; contradiction. Qed.

Lemma getSrc_try_shape (h : Host) (d : Uri) (doc : value) (dir : string)
  (catalog : ContentCatalog) (w w' : world) (v : value) :
  getSrc_try h d doc dir catalog w = (Returned v, w') ->
  exists stamp c ver m f r,
    v = VObj stamp [("component", c); ("version", ver); ("module", m);
                    ("family", f); ("relative", r)].
Proof.
  unfold getSrc_try. intros H.
  repeat (apply bind_returned in H as (? & ? & _ & H)).
  unfold object_literal in H. injection H as <- _. eauto 10.
Qed.

(** How [getSrc] runs once a configuration file is located. *)
Lemma getSrc_located (h : Host) (d : Uri) (catalog : ContentCatalog)
  (config : Uri) (w : world) (doc : value) (w2 : world) :
  located h d = Some config ->
  parseAntoraConfig h d (logged [located_line h d] w) = (Returned doc, w2) ->
  getSrc h d (Some catalog) w
  = try_catch
      (getSrc_try h d doc (Path.dirname (fsPath config)) catalog)
      (fun e =>
         console_log ("Unable to return src : " ++ error_toString e) ;;;
         object_literal [])
      (World (console w2) (S (next_stamp w2))).
Proof.
  intros L P. unfold getSrc, bind.
  rewrite FragmentFacts.getAntoraConfig_run, L, P. unfold object_literal.
  now rewrite (FragmentFacts.parseAntoraConfig_older _ _ _ _ _ P []).
Qed.

Lemma getSrc_shape (h : Host) (d : Uri) (contentCatalog : option ContentCatalog)
  (w : world) :
  exists stamp props w',
    getSrc h d contentCatalog w = (Returned (VObj stamp props), w') /\
    (props = [] \/
     map fst props = ["component"; "version"; "module"; "family"; "relative"]).
Proof.
  unfold getSrc, bind. rewrite FragmentFacts.getAntoraConfig_run.
  destruct (FragmentFacts.parseAntoraConfig_returns h d
              (logged [located_line h d] w)) as (doc & w2 & P).
  rewrite P. unfold object_literal.
  destruct (located h d); [|eauto 6].
  destruct (negb _), contentCatalog; eauto 6.
  unfold try_catch.
  destruct (getSrc_try _ _ _ _ _ _) as [[v|e] w3] eqn:T.
  - apply getSrc_try_shape in T as (stamp & c0 & ver & m & f & r & ->).
    do 3 eexists. split; [reflexivity | now right].
  - unfold bind, console_log. eauto 6.
Qed.

End ResolverMore.

(** X5.  What [getAttributes] does is decided by the parsed
    configuration alone: it throws a [TypeError] when the configuration is
    [undefined] or [null] or when its [asciidoc] entry is, and returns the
    [attributes] entry of [asciidoc] otherwise, which is [undefined] when
    that entry is missing.  The empty mapping of the else-branch is never
    the result by that branch. *)
Theorem getAttributes_outcome (h : Host) (textDocumentUri : Uri) (w w1 : world)
  (doc : value) :
  parseAntoraConfig h textDocumentUri w = (Returned doc, w1) ->
  getAttributes h textDocumentUri w =
  (match doc with
   | VUndefined =>
       Thrown (TypeError "Cannot read properties of undefined (reading 'asciidoc')")
   | VNull =>
       Thrown (TypeError "Cannot read properties of null (reading 'asciidoc')")
   | _ =>
       match prop doc "asciidoc" with
       | VUndefined =>
           Thrown (TypeError
                     "Cannot read properties of undefined (reading 'attributes')")
       | VNull =>
           Thrown (TypeError
                     "Cannot read properties of null (reading 'attributes')")
       | asciidoc => Returned (prop asciidoc "attributes")
       end
   end,
   World (console w1) (S (next_stamp w1))).
Proof.
  intros P. unfold getAttributes, bind. rewrite P. unfold object_literal.
  rewrite (FragmentFacts.parseAntoraConfig_older _ _ _ _ _ P []). simpl negb.
  cbv iota.
  destruct doc as [| | | | |stamp props]; try reflexivity.
  simpl. destruct (lookup "asciidoc" props); reflexivity.
Qed.

Lemma getAttributes_outcome_witness :
  getAttributes
    (yaml_host (Returned (DMap [("name", DStr "docs"); ("version", DStr "1.0")])))
    sample_page initial_world
  = (Thrown (TypeError "Cannot read properties of undefined (reading 'attributes')"),
     World ["Found an Antora configuration file at /home/docs/antora.yml for the AsciiDoc document /home/docs/modules/ROOT/pages/index.adoc"] 2).
Proof.
  exact (getAttributes_outcome
           (yaml_host (Returned (DMap [("name", DStr "docs"); ("version", DStr "1.0")])))
           sample_page initial_world _
           (VObj 0 [("name", VStr "docs"); ("version", VStr "1.0")]) eq_refl).
Defined.

(** X6.  The parser validates nothing: when [yaml.load] answers
    [undefined] or [null], as for an empty file, [parseAntoraConfig]
    returns that value, not an empty structure, and logs no failure.
    [getAttributes] then throws a [TypeError] on [asciidoc], and [getSrc]
    catches the one on [name] and returns an empty object. *)
Theorem empty_configuration_is_not_empty_structure (h : Host)
  (textDocumentUri config : Uri) (text : string) (parsed : data)
  (catalog : ContentCatalog) (w : world) :
  located h textDocumentUri = Some config ->
  readFileSync h (fsPath config) = Returned text ->
  yaml_load h text = Returned parsed ->
  parsed = DUndefined \/ parsed = DNull ->
  let v := match parsed with DNull => VNull | _ => VUndefined end in
  let what := match parsed with DNull => "null" | _ => "undefined" end in
  let w1 := logged [located_line h textDocumentUri] w in
  parseAntoraConfig h textDocumentUri w = (Returned v, w1) /\
  getAttributes h textDocumentUri w
  = (Thrown (TypeError ("Cannot read properties of " ++ what
                        ++ " (reading 'asciidoc')")),
     World (console w1) (S (next_stamp w1))) /\
  getSrc h textDocumentUri (Some catalog) w
  = (Returned (VObj (S (next_stamp w)) []),
     World (console w ++ [located_line h textDocumentUri;
                          located_line h textDocumentUri;
                          ("Unable to return src : TypeError: Cannot read properties of "
                           ++ what ++ " (reading 'name')")%string])%list
       (S (S (next_stamp w)))).
Proof.
  intros L R Y D v what w1.
  assert (P : forall w0,
             parseAntoraConfig h textDocumentUri w0
             = (Returned v, logged [located_line h textDocumentUri] w0)).
  { intros w0. rewrite FragmentFacts.parseAntoraConfig_run. cbv zeta.
    rewrite L, R, Y. unfold allocate, v.
    destruct D as [-> | ->]; reflexivity. }
  split; [apply P|]. split.
  - unfold getAttributes, bind. rewrite P. unfold object_literal, v, what.
    destruct D as [-> | ->]; reflexivity.
  - rewrite (ResolverMore.getSrc_located h _ catalog config w v _ L (P _)).
    unfold try_catch, getSrc_try, bind, v, what.
    destruct D as [-> | ->]; simpl; unfold logged; simpl;
      rewrite <- !app_assoc; reflexivity.
Qed.

Lemma empty_configuration_is_not_empty_structure_witness :
  parseAntoraConfig (yaml_host (Returned DUndefined)) sample_page initial_world
  = (Returned VUndefined,
     logged [located_line (yaml_host (Returned DUndefined)) sample_page]
       initial_world).
Proof.
  exact (proj1 (empty_configuration_is_not_empty_structure
                  (yaml_host (Returned DUndefined)) sample_page sample_config
                  "" DUndefined sample_catalog initial_world
                  eq_refl eq_refl eq_refl (or_introl eq_refl))).
Defined.

(** X7.  Whatever the document, the catalog and the host, the object
    [getSrc] returns has no property at all or exactly the five
    properties component, version, module, family and relative, in this
    order; nothing else of a catalog entry gets out. *)
Theorem getSrc_result_shape (h : Host) (textDocumentUri : Uri)
  (contentCatalog : option ContentCatalog) (w : world) :
  exists stamp props w',
    getSrc h textDocumentUri contentCatalog w = (Returned (VObj stamp props), w') /\
    (props = [] \/
     map fst props = ["component"; "version"; "module"; "family"; "relative"]).
Proof. apply ResolverMore.getSrc_shape. Qed.

(** X8.  The guard [doc !== {}] of [getSrc] holds in every run, so a
    configuration file that cannot be read or parsed does not stop the
    lookup: the catalog is asked for the key whose component and version
    are [undefined], and its answer decides the result as usual. *)
Theorem getSrc_looks_up_despite_parse_failure (h : Host)
  (textDocumentUri config : Uri) (catalog : ContentCatalog) (err : error)
  (w : world) :
  located h textDocumentUri = Some config ->
  readFileSync h (fsPath config) = Thrown err \/
  (exists text,
     readFileSync h (fsPath config) = Returned text /\
     yaml_load h text = Thrown err) ->
  forall answer,
    getByPath catalog
      (mkPathKey VUndefined VUndefined
         (Path.relative (cwd h) (Path.dirname (fsPath config))
            (path textDocumentUri)))
    = Returned answer ->
    (forall i fprops j sprops,
       answer = VObj i fprops -> lookup "src" fprops = VObj j sprops ->
       exists stamp w',
         getSrc h textDocumentUri (Some catalog) w
         = (Returned
              (VObj stamp
                 [("component", lookup "component" sprops);
                  ("version", lookup "version" sprops);
                  ("module", lookup "module" sprops);
                  ("family", lookup "family" sprops);
                  ("relative", lookup "relative" sprops)]),
            w')) /\
    (answer = VUndefined ->
     exists stamp w',
       getSrc h textDocumentUri (Some catalog) w = (Returned (VObj stamp []), w')).
Proof.
  intros L F answer G.
  assert (P : exists w2,
             parseAntoraConfig h textDocumentUri
               (logged [located_line h textDocumentUri] w)
             = (Returned (VObj (next_stamp w) []), w2)).
  { rewrite FragmentFacts.parseAntoraConfig_run. cbv zeta. rewrite L.
    unfold object_literal.
    destruct F as [F | (text & R & F)]; [rewrite F | rewrite R, F]; eauto. }
  destruct P as [w2 P].
  rewrite (ResolverMore.getSrc_located h _ catalog config w _ _ L P).
  unfold try_catch, getSrc_try, bind. simpl. unfold lift. rewrite G. split.
  - intros i fprops j sprops -> S.
    unfold src_field, bind. simpl. rewrite S. simpl. eauto.
  - intros ->. simpl. unfold object_literal. eauto.
Qed.

Lemma getSrc_looks_up_despite_parse_failure_witness :
  exists stamp w',
    getSrc (broken_host enabled_settings) sample_page
      (Some (mkContentCatalog (fun _ => Returned sample_file)
               (fun _ _ _ _ => Returned VUndefined)))
      initial_world
    = (Returned
         (VObj stamp
            [("component", VStr "docs"); ("version", VStr "1.0");
             ("module", VStr "ROOT"); ("family", VStr "page");
             ("relative", VStr "index.adoc")]),
       w').
Proof.
  exact (proj1 (getSrc_looks_up_despite_parse_failure
                  (broken_host enabled_settings) sample_page sample_config
                  (mkContentCatalog (fun _ => Returned sample_file)
                     (fun _ _ _ _ => Returned VUndefined))
                  (OtherError "YAMLException" "unexpected end of the stream")
                  initial_world eq_refl
                  (or_intror (ex_intro _ "name: [" (conj eq_refl eq_refl)))
                  sample_file eq_refl)
           0 [("src", VObj 1 sample_src)] 1 sample_src eq_refl eq_refl).
Defined.

(** X9.  What [getSrc] returns can always be handed to
    [resolveAntoraResourceIds]: reading component, version and module of
    it never throws, and the catalog is asked in the context made of these
    three.  After a miss of [getSrc] the three are [undefined]: the
    catalog is asked all the same. *)
Theorem resolveAntoraResourceIds_after_getSrc (h : Host) (textDocumentUri : Uri)
  (contentCatalog : option ContentCatalog) (w w' : world) (src : value)
  (id family : string) (catalog : ContentCatalog) (w0 : world) :
  getSrc h textDocumentUri contentCatalog w = (Returned src, w') ->
  resolveAntoraResourceIds id (Some catalog) src family w0
  = (resource <- lift (resolveResource catalog id
                         (mkResourceContext (prop src "component")
                            (prop src "version") (prop src "module"))
                         family allowed_families) ;;
     if negb (strict_eq resource VUndefined) then
       src' <- get resource "src" ;; get src' "abspath"
     else ret VUndefined) w0 /\
  (is_empty_object src ->
   mkResourceContext (prop src "component") (prop src "version")
     (prop src "module")
   = mkResourceContext VUndefined VUndefined VUndefined).
Proof.
  intros G.
  destruct (ResolverMore.getSrc_shape h textDocumentUri contentCatalog w)
    as (stamp & props & w1 & E & _).
  rewrite E in G. injection G as <- _. split.
  - reflexivity.
  - intros [stamp' X]. injection X as _ ->. reflexivity.
Qed.

Lemma resolveAntoraResourceIds_after_getSrc_witness :
  resolveAntoraResourceIds "index.adoc" (Some sample_catalog)
    (VObj 1 []) "page" initial_world
  = (Returned (VStr "/home/docs/modules/ROOT/pages/index.adoc"), initial_world).
Proof.
  exact (proj1 (resolveAntoraResourceIds_after_getSrc
                  (sample_host enabled_settings
                     (fun _ => Returned (mkContentAggregate [])))
                  sample_outside (Some sample_catalog) initial_world _
                  (VObj 1 []) "index.adoc" "page" sample_catalog initial_world
                  eq_refl)).
Defined.

(** X10.  [resolveAntoraResourceIds] returns [undefined] for the answer
    [undefined] only.  An error thrown by the catalog is not caught, and
    an answer that is [null], a boolean, a number, a string or an object
    without [src] makes the call throw a [TypeError]. *)
Theorem resolveAntoraResourceIds_throws (id family : string) (src : value)
  (stamp : nat) (props : list (string * value)) (catalog : ContentCatalog)
  (w : world) :
  src = VObj stamp props ->
  forall answer,
    resolveResource catalog id
      (mkResourceContext (lookup "component" props) (lookup "version" props)
         (lookup "module" props))
      family allowed_families
    = answer ->
    (forall e, answer = Thrown e ->
       resolveAntoraResourceIds id (Some catalog) src family w = (Thrown e, w)) /\
    (answer = Returned VNull ->
     resolveAntoraResourceIds id (Some catalog) src family w
     = (Thrown (TypeError "Cannot read properties of null (reading 'src')"), w)) /\
    (forall r, answer = Returned r ->
       r <> VUndefined -> r <> VNull -> prop r "src" = VUndefined ->
       resolveAntoraResourceIds id (Some catalog) src family w
       = (Thrown (TypeError
                    "Cannot read properties of undefined (reading 'abspath')"),
          w)) /\
    (forall r, answer = Returned r ->
       fst (resolveAntoraResourceIds id (Some catalog) src family w)
       = Returned VUndefined ->
       r = VUndefined \/
       (prop r "src" <> VUndefined /\ prop r "src" <> VNull /\
        prop (prop r "src") "abspath" = VUndefined)).
Proof.
  intros -> answer R.
  unfold resolveAntoraResourceIds, bind, lift. simpl. rewrite R.
  split; [now intros e ->|]. split; [now intros ->|]. split.
  - intros r -> H1 H2 S.
    destruct r; try contradiction; simpl in *; try reflexivity.
    now rewrite S.
  - intros r ->.
    destruct r as [| | | | |i rprops]; simpl; try discriminate; [now left|].
    destruct (lookup "src" rprops) as [| | | | |j sprops]; simpl;
      try discriminate; intros E; right;
      (split; [discriminate | split; [discriminate | congruence]]).
Qed.

Lemma resolveAntoraResourceIds_throws_witness :
  resolveAntoraResourceIds "index.adoc"
    (Some (mkContentCatalog (fun _ => Returned VUndefined)
             (fun _ _ _ _ => Returned (VBool false))))
    (VObj 7 sample_src) "page" initial_world
  = (Thrown (TypeError "Cannot read properties of undefined (reading 'abspath')"),
     initial_world).
Proof.
  refine (proj1 (proj2 (proj2
            (resolveAntoraResourceIds_throws "index.adoc" "page"
               (VObj 7 sample_src) 7 sample_src
               (mkContentCatalog (fun _ => Returned VUndefined)
                  (fun _ _ _ _ => Returned (VBool false)))
               initial_world eq_refl _ eq_refl)))
            (VBool false) eq_refl _ _ eq_refl); discriminate.
Defined.

(** ** The catalog builder *)

(** X11.  [getContentCatalog] returns a catalog exactly when the flag and
    the setting are both [true], a configuration file is located, it lies
    in a workspace folder, and the aggregation and the classification of
    the playbook of that file both return; the catalog is the one the
    classification returned for this playbook and this aggregate. *)
Theorem getContentCatalog_returns_catalog_iff (h : Host) (textDocumentUri : Uri)
  (w w' : world) (catalog : ContentCatalog) :
  getContentCatalog h textDocumentUri w = (Returned (Some catalog), w') <->
  antoraSupportSetting (settings h) = VBool true /\
  enableAntoraSupport (settings h) = VBool true /\
  exists config folder contentAggregate,
    located h textDocumentUri = Some config /\
    getWorkspaceFolder h config = Some folder /\
    aggregateContent h
      (mkPlaybook
         [mkContentSource (fsPath (uri folder)) "HEAD"
            (Path.relative (cwd h) (fsPath (uri folder))
               (Path.dirname (fsPath config)))] [] [])
    = Returned contentAggregate /\
    classifyContent h
      (mkPlaybook
         [mkContentSource (fsPath (uri folder)) "HEAD"
            (Path.relative (cwd h) (fsPath (uri folder))
               (Path.dirname (fsPath config)))] [] [])
      contentAggregate
    = Returned catalog /\
    w' = logged [located_line h textDocumentUri] w.
Proof.
  unfold getContentCatalog, try_catch, getContentCatalog_try, createPlaybook, bind.
  rewrite FragmentFacts.getActiveAntoraConfig_run.
  destruct (strict_eq (antoraSupportSetting (settings h)) (VBool true)) eqn:S1;
    [|split; [discriminate|];
      intros (T & _); apply FragmentFacts.strict_eq_true in T; congruence].
  destruct (strict_eq (enableAntoraSupport (settings h)) (VBool true)) eqn:S2;
    [|split; [discriminate|];
      intros (_ & T & _); apply FragmentFacts.strict_eq_true in T; congruence].
  apply FragmentFacts.strict_eq_true in S1, S2. simpl andb. cbv iota.
  rewrite FragmentFacts.getAntoraConfig_run.
  destruct (located h textDocumentUri) as [config|];
    [|split; [discriminate | intros (_ & _ & c & f & a & X & _); discriminate]].
  destruct (getWorkspaceFolder h config) as [folder|] eqn:F.
  - unfold lift.
    unfold ret. cbv beta iota.
    match goal with |- context [aggregateContent h ?pb] =>
      destruct (aggregateContent h pb) as [agg|e] eqn:A end.
    + match goal with |- context [classifyContent h ?pb agg] =>
        destruct (classifyContent h pb agg) as [cat|e] eqn:C end.
      * split.
        -- intros X. injection X as -> <-.
           repeat split; try assumption.
           exists config, folder, agg. rewrite F, A, C. auto.
        -- intros (_ & _ & c & f & a & X & Y & A' & C' & ->).
           injection X as <-. rewrite F in Y. injection Y as <-.
           rewrite A in A'. injection A' as <-.
           rewrite C in C'. injection C' as <-. reflexivity.
      * split.
        -- unfold getContentCatalog_catch.
           destruct (instanceof_AntoraDisabledError e); discriminate.
        -- intros (_ & _ & c & f & a & X & Y & A' & C' & _).
           injection X as <-. rewrite F in Y. injection Y as <-.
           rewrite A in A'. injection A' as <-. congruence.
    + split.
      * unfold getContentCatalog_catch.
        destruct (instanceof_AntoraDisabledError e); discriminate.
      * intros (_ & _ & c & f & a & X & Y & A' & _).
        injection X as <-. rewrite F in Y. injection Y as <-. congruence.
  - split; [discriminate|].
    intros (_ & _ & c & f & a & X & Y & _).
    injection X as <-. congruence.
Qed.

Lemma getContentCatalog_returns_catalog_iff_witness :
  getContentCatalog
    (sample_host enabled_settings (fun _ => Returned (mkContentAggregate [])))
    sample_page initial_world
  = (Returned (Some sample_catalog),
     logged [located_line
               (sample_host enabled_settings
                  (fun _ => Returned (mkContentAggregate []))) sample_page]
       initial_world).
Proof.
  apply (proj2 (getContentCatalog_returns_catalog_iff
                  (sample_host enabled_settings
                     (fun _ => Returned (mkContentAggregate [])))
                  sample_page initial_world _ sample_catalog)).
  split; [reflexivity|]. split; [reflexivity|].
  exists sample_config, (mkWorkspaceFolder (mkUri "/home" "/home")),
    (mkContentAggregate []).
  repeat split.
Defined.

(** X12.  When support is enabled and the configuration file located
    lies in no workspace folder, [createPlaybook] throws a [TypeError];
    [getContentCatalog] logs it and throws it again, as it does for a
    failure of the Antora libraries. *)
Theorem getContentCatalog_without_workspace_folder (h : Host)
  (textDocumentUri config : Uri) (w : world) :
  antoraSupportSetting (settings h) = VBool true ->
  enableAntoraSupport (settings h) = VBool true ->
  located h textDocumentUri = Some config ->
  getWorkspaceFolder h config = None ->
  createPlaybook h textDocumentUri w
  = (Thrown (TypeError "Cannot read properties of undefined (reading 'uri')"),
     logged [located_line h textDocumentUri] w) /\
  getContentCatalog h textDocumentUri w
  = (Thrown (TypeError "Cannot read properties of undefined (reading 'uri')"),
     logged ["Unable to create contentCatalog : TypeError: Cannot read properties of undefined (reading 'uri')"]
       (logged [located_line h textDocumentUri] w)).
Proof.
  intros S1 S2 L F.
  assert (P : createPlaybook h textDocumentUri w
              = (Thrown (TypeError
                           "Cannot read properties of undefined (reading 'uri')"),
                 logged [located_line h textDocumentUri] w)).
  { unfold createPlaybook, bind.
    rewrite FragmentFacts.getActiveAntoraConfig_run, S1, S2. simpl.
    rewrite FragmentFacts.getAntoraConfig_run, L, F. reflexivity. }
  split; [exact P|].
  unfold getContentCatalog, try_catch, getContentCatalog_try, bind.
  rewrite P. reflexivity.
Qed.

Lemma getContentCatalog_without_workspace_folder_witness :
  fst (getContentCatalog
         (mkHost [sample_config] (fun _ => Returned "") (fun _ => Returned DNull)
            enabled_settings (fun _ => None)
            (fun _ => Returned (mkContentAggregate []))
            (fun _ _ => Returned sample_catalog) "/home")
         sample_page initial_world)
  = Thrown (TypeError "Cannot read properties of undefined (reading 'uri')").
Proof.
  exact (f_equal fst
           (proj2 (getContentCatalog_without_workspace_folder
                     (mkHost [sample_config] (fun _ => Returned "")
                        (fun _ => Returned DNull)
                        enabled_settings (fun _ => None)
                        (fun _ => Returned (mkContentAggregate []))
                        (fun _ _ => Returned sample_catalog) "/home")
                     sample_page sample_config initial_world
                     eq_refl eq_refl eq_refl eq_refl))).
Defined.

(** X13.  The content source of the playbook leads back to the
    configuration file: for a workspace folder [root] and a configuration
    file [root/s1/.../sk/antora.yml] in normal form, joining the url of
    the source with its start path gives the directory of the
    configuration file, and the start path is empty when the file lies in
    the root of the folder. *)
Theorem createPlaybook_source_leads_back (h : Host) (textDocumentUri : Uri)
  (w w1 : world) (config : Uri) (folder : WorkspaceFolder)
  (root sub : list string) :
  getActiveAntoraConfig h textDocumentUri w = (Returned (Some config), w1) ->
  getWorkspaceFolder h config = Some folder ->
  root <> [] ->
  Forall (fun n => Path.is_name n = true) (root ++ sub)%list ->
  fsPath (uri folder) = Path.absolute root ->
  fsPath config = Path.absolute (root ++ sub) ++ "/antora.yml" ->
  exists source,
    createPlaybook h textDocumentUri w
    = (Returned (Some (mkPlaybook [source] [] [])), w1) /\
    Path.join (url source) (startPath source) = Path.dirname (fsPath config) /\
    (sub = [] -> startPath source = "").
Proof.
  intros A F Hne Hn Er Ec.
  assert (D : Path.dirname (fsPath config) = Path.absolute (root ++ sub)).
  { rewrite Ec. change "/antora.yml" with (String Path.sep "antora.yml").
    rewrite (PathFacts.dirname_child _ "antora.yml" Hn eq_refl).
    destruct (root ++ sub)%list eqn:E; [|reflexivity].
    apply app_eq_nil in E as [-> _]. now elim Hne. }
  eexists. split.
  - unfold createPlaybook, bind. rewrite A, F. reflexivity.
  - simpl. rewrite D, Er, (PathFacts.relative_descendant (cwd h) root sub Hne Hn).
    split; [now apply LocatorMore.join_descendant | now intros ->].
Qed.

Lemma createPlaybook_source_leads_back_witness :
  exists source,
    createPlaybook
      (sample_host enabled_settings (fun _ => Returned (mkContentAggregate [])))
      sample_page initial_world
    = (Returned (Some (mkPlaybook [source] [] [])),
       logged [located_line
                 (sample_host enabled_settings
                    (fun _ => Returned (mkContentAggregate []))) sample_page]
         initial_world) /\
    Path.join (url source) (startPath source) = Path.dirname (fsPath sample_config) /\
    (["docs"] = [] -> startPath source = "").
Proof.
  refine (createPlaybook_source_leads_back
            (sample_host enabled_settings
               (fun _ => Returned (mkContentAggregate [])))
            sample_page initial_world _ sample_config
            (mkWorkspaceFolder (mkUri "/home" "/home")) ["home"] ["docs"]
            eq_refl eq_refl _ _ eq_refl eq_refl).
  - discriminate.
  - repeat constructor.
Defined.

(** ** The opt-in gate *)

Module GateMore.

Lemma strict_eq_undefined (v : value) :
  strict_eq v VUndefined = true <-> v = VUndefined.
Proof. destruct v; simpl; split; try reflexivity; discriminate. Qed.

Lemma antoraConfigExists_run (h : Host) (d : Uri) (w : world) :
  antoraConfigExists h d w
  = (Returned (match located h d with Some _ => true | None => false end),
     logged [located_line h d] w).
Proof.
  unfold antoraConfigExists, bind.
  now rewrite FragmentFacts.getAntoraConfig_run.
Qed.

Lemma on_open_other (h : Host) (d : Uri) (s : Session) :
  located h d = None ->
  persisted (on_open h d s) = persisted s /\
  subscribed (on_open h d s) = subscribed s /\
  providers (on_open h d s) = providers s /\
  prompts (on_open h d s) = prompts s /\
  pending (on_open h d s) = pending s.
Proof.
  intros L. unfold on_open.
  destruct (subscribed s) eqn:S;
    [rewrite antoraConfigExists_run, L; simpl|]; auto 10.
Qed.

Lemma on_open_antora (h : Host) (d : Uri) (s : Session) :
  subscribed s = true -> located h d <> None ->
  on_open h d s
  = mkSession (persisted s) true (providers s) (S (prompts s))
      (pending s ++ [d]) (logged [located_line h d] (out s)).
Proof.
  intros S L. unfold on_open. rewrite S, antoraConfigExists_run.
  destruct (located h d); [reflexivity | now elim L].
Qed.

Lemma open_all_antora (h : Host) (docs : list Uri) :
  forall s,
    subscribed s = true ->
    (forall d, In d docs -> located h d <> None) ->
    persisted (open_all h s docs) = persisted s /\
    subscribed (open_all h s docs) = true /\
    providers (open_all h s docs) = providers s /\
    prompts (open_all h s docs) = prompts s + length docs /\
    pending (open_all h s docs) = (pending s ++ docs)%list.
Proof.
  unfold open_all.
  induction docs as [|d docs IH]; intros s S L; simpl.
  - rewrite app_nil_r. repeat split; [assumption | lia].
  - rewrite (on_open_antora h d s S (L d (or_introl eq_refl))).
    match goal with |- context [run h ?s1 _] =>
      destruct (IH s1 eq_refl (fun x I => L x (or_intror I)))
        as (P1 & P2 & P3 & P4 & P5) end.
    rewrite P1, P2, P3, P4, P5. simpl.
    rewrite <- app_assoc. repeat split. lia.
Qed.

Lemma on_answer_yes (s : Session) (d : Uri) (rest : list Uri) :
  pending s = d :: rest ->
  on_answer 0 (Some yesAnswer) s
  = mkSession (mkSettings (VBool true) (VBool true)) false (S (providers s))
      (prompts s) rest (out s).
Proof. intros P. unfold on_answer. rewrite P. reflexivity. Qed.

Lemma answer_all_yes (h : Host) (n : nat) :
  forall s,
    n <= length (pending s) ->
    providers (answer_all h s n (Some yesAnswer)) = providers s + n /\
    prompts (answer_all h s n (Some yesAnswer)) = prompts s /\
    pending (answer_all h s n (Some yesAnswer)) = skipn n (pending s).
Proof.
  unfold answer_all.
  induction n as [|n IH]; intros s L; simpl.
  - repeat split. lia.
  - destruct (pending s) as [|d rest] eqn:P; [simpl in L; lia|].
    rewrite (on_answer_yes s d rest P).
    match goal with |- context [run h ?s1 _] =>
      destruct (IH s1) as (P1 & P2 & P3) end.
    { simpl in *. lia. }
    rewrite P1, P2, P3. simpl. repeat split. lia.
Qed.

Lemma Forall_remove_nth {A} (P : A -> Prop) (k : nat) (l : list A) :
  Forall P l -> Forall P (remove_nth k l).
Proof.
  intros H. revert k. induction H as [|x l Hx Hl IH]; intros k.
  - destruct k; constructor.
  - destruct k; simpl; [exact Hl | constructor; auto].
Qed.

(** What a session started undecided keeps: an activation is paid for by
    an answered message, and the messages on screen belong to documents
    of a component. *)
Lemma step_accounts (h : Host) (s : Session) (e : event) :
  providers s + length (pending s) <= prompts s /\
  Forall (fun d => located h d <> None) (pending s) ->
  providers (step h s e) + length (pending (step h s e)) <= prompts (step h s e) /\
  Forall (fun d => located h d <> None) (pending (step h s e)).
Proof.
  intros [I1 I2]. destruct e as [d | k a]; simpl.
  - unfold on_open. destruct (subscribed s); [|auto].
    rewrite antoraConfigExists_run.
    destruct (located h d) eqn:L; simpl; [|auto].
    rewrite length_app. simpl. split; [lia|].
    apply Forall_app. split; [exact I2|]. constructor; [congruence | constructor].
  - unfold on_answer. destruct (nth_error (pending s) k) eqn:N; [|auto].
    assert (Hk : S (length (remove_nth k (pending s))) = length (pending s))
      by (apply GateFacts.length_remove_nth; congruence).
    split.
    + destruct (truthy _); simpl; lia.
    + destruct (truthy _); simpl; now apply Forall_remove_nth.
Qed.

Lemma step_prompts (h : Host) (s : Session) (e : event) :
  prompts (step h s e) <= prompts s + (if is_open e then 1 else 0).
Proof.
  destruct e as [d | k a]; simpl.
  - unfold on_open. destruct (subscribed s); [|lia].
    destruct (antoraConfigExists h d (out s)) as [[[|]|] w']; simpl; lia.
  - unfold on_answer. destruct (nth_error (pending s) k); [|lia].
    destruct (truthy _); simpl; lia.
Qed.

Lemma getContentCatalog_off (h : Host) (d : Uri) (w : world) :
  antoraSupportSetting (settings h) <> VBool true \/
  enableAntoraSupport (settings h) <> VBool true ->
  getContentCatalog h d w = (Returned None, w).
Proof.
  intros H.
  unfold getContentCatalog, try_catch, getContentCatalog_try, createPlaybook, bind.
  rewrite FragmentFacts.getActiveAntoraConfig_run.
  replace (strict_eq (antoraSupportSetting (settings h)) (VBool true)
           && strict_eq (enableAntoraSupport (settings h)) (VBool true))
    with false; [reflexivity|].
  symmetry. apply not_true_is_false. intros T.
  apply andb_true_iff in T as [T1 T2].
  apply FragmentFacts.strict_eq_true in T1, T2. tauto.
Qed.

End GateMore.

Module LiveFacts.





Lemma nth_error_last {A} (l : list A) (x : A) :
  nth_error (l ++ [x]) (length l) = Some x.
Proof. induction l; simpl; auto. Qed.

Lemma set_nth_last {A} (l : list A) (x y : A) :
  set_nth (length l) y (l ++ [x]) = (l ++ [y])%list.
Proof. induction l as [|a l IH]; simpl; [reflexivity | now rewrite IH]. Qed.

Lemma remove_nth_last {A} (l : list A) (x : A) :
  remove_nth (length l) (l ++ [x]) = l.
Proof. induction l as [|a l IH]; simpl; [reflexivity | now rewrite IH]. Qed.

Lemma nth_error_set_nth {A} (k : nat) (x : A) (l : list A) :
  nth_error l k <> None -> nth_error (set_nth k x l) k = Some x.
Proof.
  revert k. induction l as [|a l IH]; intros k H.
  - destruct k; now elim H.
  - destruct k; simpl; [reflexivity | now apply IH].
Qed.

Lemma set_nth_twice {A} (k : nat) (x y : A) (l : list A) :
  set_nth k y (set_nth k x l) = set_nth k y l.
Proof.
  revert k. induction l as [|a l IH]; intros k; destruct k; simpl;
    try reflexivity. now rewrite IH.
Qed.

Lemma remove_nth_set_nth {A} (k : nat) (x : A) (l : list A) :
  remove_nth k (set_nth k x l) = remove_nth k l.
Proof.
  revert k. induction l as [|a l IH]; intros k; destruct k; simpl;
    try reflexivity. now rewrite IH.
Qed.

Lemma map_remove_nth {A B} (f : A -> B) (k : nat) (l : list A) :
  map f (remove_nth k l) = remove_nth k (map f l).
Proof.
  revert k. induction l as [|a l IH]; intros k; destruct k; simpl;
    try reflexivity. now rewrite IH.
Qed.

Lemma as_live_construct (st : Settings) (w : world) :
  as_live (construct st w) = live_construct st w.
Proof.
  unfold construct, live_construct.
  destruct (strict_eq (antoraSupportSetting st) (VBool true)).
  - destruct (strict_eq (enableAntoraSupport st) (VBool true)); reflexivity.
  - destruct (strict_eq (antoraSupportSetting st) VUndefined); reflexivity.
Qed.

(** Opening a document in a session is: the listener starts a run, and
    its search ends before anything else happens. *)
Lemma as_live_on_open (h : Host) (unset : value) (d : Uri) (s : Session) :
  as_live (on_open h d s)
  = live_run h unset (as_live s) [Opened d; Searched (length (pending s))].
Proof.
  unfold on_open, live_run. simpl.
  destruct (subscribed s) eqn:Sub.
  - simpl. rewrite <- (length_map (fun d => mkRun d Asking) (pending s)).
    rewrite nth_error_last.
    destruct (antoraConfigExists h d (out s)) as [[[|]|e] w'];
      unfold as_live; simpl.
    + now rewrite set_nth_last, map_app.
    + now rewrite remove_nth_last.
    + now rewrite remove_nth_last.
  - unfold as_live. simpl.
    rewrite <- (length_map (fun d => mkRun d Asking) (pending s)).
    replace (nth_error (map (fun d => mkRun d Asking) (pending s))
               (length (map (fun d => mkRun d Asking) (pending s))))
      with (@None Run); [reflexivity|].
    symmetry. apply nth_error_None. lia.
Qed.

(** An answer in a session is: the message closes, and the two updates of
    its run are written before anything else happens. *)
Lemma as_live_on_answer (h : Host) (k : nat) (answer : option string)
  (s : Session) :
  as_live (on_answer k answer s)
  = live_run h VUndefined (as_live s) [Answered k answer; Updated k; Updated k].
Proof.
  unfold on_answer, live_run. simpl.
  rewrite nth_error_map.
  destruct (nth_error (pending s) k) as [d|] eqn:N; simpl.
  - assert (M : nth_error (map (fun d => mkRun d Asking) (pending s)) k <> None)
      by (rewrite nth_error_map, N; discriminate).
    rewrite (nth_error_set_nth _ _ _ M). simpl.
    rewrite set_nth_twice, (nth_error_set_nth _ _ _ M). simpl.
    rewrite remove_nth_set_nth, <- map_remove_nth.
    fold (chosen answer).
    assert (C : (if strict_eq (chosen answer) VUndefined then VUndefined
                 else chosen answer) = chosen answer).
    { unfold chosen. destruct answer as [a|]; [|reflexivity].
      destruct (a =? yesAnswer)%string; [reflexivity|].
      destruct (a =? noAnswer)%string; reflexivity. }
    rewrite C. unfold as_live.
    destruct (truthy (chosen answer)); reflexivity.
  - rewrite nth_error_map, N. simpl. rewrite nth_error_map, N. reflexivity.
Qed.

(** Every run of a session is a run of the listener await by await: the
    one in which no document is opened while a run is searching or
    writing. *)
Lemma session_runs_are_live (h : Host) (es : list event) :
  forall s, exists signals,
    as_live (run h s es) = live_run h VUndefined (as_live s) signals.
Proof.
  induction es as [|e es IH]; intros s.
  - now exists [].
  - simpl. destruct (IH (step h s e)) as [signals E]. rewrite E.
    destruct e as [d | k a]; simpl.
    + exists ([Opened d; Searched (length (pending s))] ++ signals)%list.
      rewrite (as_live_on_open h VUndefined d s).
      unfold live_run. now rewrite fold_left_app.
    + exists ([Answered k a; Updated k; Updated k] ++ signals)%list.
      rewrite (as_live_on_answer h k a s).
      unfold live_run. now rewrite fold_left_app.
Qed.

End LiveFacts.

(** X14.  In a workspace where the choice was made before, the manager
    never asks: whatever documents are opened and whatever answers arrive,
    no message is shown, the settings are left as they are, and the
    completion provider is registered once if the flag and the setting are
    both [true] and never otherwise. *)
Theorem decided_workspace_is_never_asked (h : Host) (st : Settings) (w : world)
  (es : list event) :
  antoraSupportSetting st <> VUndefined ->
  prompts (run h (construct st w) es) = 0 /\
  pending (run h (construct st w) es) = [] /\
  subscribed (run h (construct st w) es) = false /\
  persisted (run h (construct st w) es) = st /\
  out (run h (construct st w) es) = w /\
  providers (run h (construct st w) es)
  = (if strict_eq (antoraSupportSetting st) (VBool true)
        && strict_eq (enableAntoraSupport st) (VBool true)
     then 1 else 0).
Proof.
  intros D.
  assert (U : strict_eq (antoraSupportSetting st) VUndefined = false).
  { apply not_true_is_false. intros T.
    now apply GateMore.strict_eq_undefined in T. }
  assert (C : construct st w
              = mkSession st false
                  (if strict_eq (antoraSupportSetting st) (VBool true)
                      && strict_eq (enableAntoraSupport st) (VBool true)
                   then 1 else 0) 0 [] w).
  { unfold construct. rewrite U.
    destruct (strict_eq (antoraSupportSetting st) (VBool true)); [|reflexivity].
    destruct (strict_eq (enableAntoraSupport st) (VBool true)); reflexivity. }
  rewrite C, GateFacts.run_settled by reflexivity. simpl. auto 10.
Qed.

Lemma decided_workspace_is_never_asked_witness :
  prompts
    (run (sample_host declined_settings (fun _ => Returned (mkContentAggregate [])))
       (construct declined_settings initial_world)
       [OpenTextDocument sample_page; UserAnswers 0 (Some yesAnswer);
        OpenTextDocument sample_page])
  = 0.
Proof.
  refine (proj1 (decided_workspace_is_never_asked
                   (sample_host declined_settings
                      (fun _ => Returned (mkContentAggregate [])))
                   declined_settings initial_world
                   [OpenTextDocument sample_page; UserAnswers 0 (Some yesAnswer);
                    OpenTextDocument sample_page] _)).
  discriminate.
Defined.

(** X15.  Documents that belong to no component cost nothing: opening
    any number of them shows no message, decides nothing and leaves the
    listener in place, so that the next document of a component opened in
    an undecided session is still asked about. *)
Theorem other_documents_leave_the_gate_alone (h : Host) (s : Session)
  (docs : list Uri) :
  (forall d, In d docs -> located h d = None) ->
  persisted (open_all h s docs) = persisted s /\
  subscribed (open_all h s docs) = subscribed s /\
  providers (open_all h s docs) = providers s /\
  prompts (open_all h s docs) = prompts s /\
  pending (open_all h s docs) = pending s /\
  (forall d, subscribed s = true -> located h d <> None ->
     prompts (on_open h d (open_all h s docs)) = S (prompts s) /\
     pending (on_open h d (open_all h s docs)) = (pending s ++ [d])%list).
Proof.
  intros L.
  assert (K : persisted (open_all h s docs) = persisted s /\
              subscribed (open_all h s docs) = subscribed s /\
              providers (open_all h s docs) = providers s /\
              prompts (open_all h s docs) = prompts s /\
              pending (open_all h s docs) = pending s).
  { unfold open_all. revert s.
    induction docs as [|d docs IH]; intros s; simpl; [auto 10|].
    destruct (GateMore.on_open_other h d s (L d (or_introl eq_refl)))
      as (P1 & P2 & P3 & P4 & P5).
    destruct (IH (fun x I => L x (or_intror I)) (on_open h d s))
      as (Q1 & Q2 & Q3 & Q4 & Q5).
    rewrite Q1, Q2, Q3, Q4, Q5. auto 10. }
  destruct K as (K1 & K2 & K3 & K4 & K5).
  repeat split; try assumption.
  - rewrite GateMore.on_open_antora; [simpl; now rewrite K4 | congruence | assumption].
  - rewrite GateMore.on_open_antora; [simpl; now rewrite K5 | congruence | assumption].
Qed.

Lemma other_documents_leave_the_gate_alone_witness :
  prompts
    (on_open (sample_host undecided_settings (fun _ => Returned (mkContentAggregate [])))
       sample_page
       (open_all (sample_host undecided_settings
                    (fun _ => Returned (mkContentAggregate [])))
          (construct undecided_settings initial_world)
          [sample_outside; sample_outside]))
  = 1.
Proof.
  refine (proj1 (proj2 (proj2 (proj2 (proj2 (proj2
            (other_documents_leave_the_gate_alone
               (sample_host undecided_settings
                  (fun _ => Returned (mkContentAggregate [])))
               (construct undecided_settings initial_world)
               [sample_outside; sample_outside] _)))))
            sample_page eq_refl _)).
  - intros d [<- | [<- | []]]; reflexivity.
  - discriminate.
Defined.



(** X17.  Activation is not idempotent.  When several documents of a
    component are opened before any answer, each has its message, and a
    "Yes" to each of them registers one more completion provider: [n]
    documents and [n] times "Yes" leave [n] providers. *)
Theorem each_yes_registers_a_provider (h : Host) (st : Settings) (w : world)
  (docs : list Uri) :
  antoraSupportSetting st = VUndefined ->
  (forall d, In d docs -> located h d <> None) ->
  prompts (answer_all h (open_all h (construct st w) docs) (length docs)
             (Some yesAnswer)) = length docs /\
  providers (answer_all h (open_all h (construct st w) docs) (length docs)
               (Some yesAnswer)) = length docs /\
  pending (answer_all h (open_all h (construct st w) docs) (length docs)
             (Some yesAnswer)) = [].
Proof.
  intros U L.
  rewrite (GateFacts.construct_undecided _ _ U).
  destruct (GateMore.open_all_antora h docs
              (mkSession st true 0 0 [] w) eq_refl L)
    as (_ & _ & P3 & P4 & P5).
  simpl in P3, P4, P5.
  destruct (GateMore.answer_all_yes h (length docs)
              (open_all h (mkSession st true 0 0 [] w) docs))
    as (Q1 & Q2 & Q3); [rewrite P5; lia|].
  rewrite Q1, Q2, Q3, P3, P4, P5. repeat split.
  apply skipn_all.
Qed.

Lemma each_yes_registers_a_provider_witness :
  providers
    (answer_all (sample_host undecided_settings
                   (fun _ => Returned (mkContentAggregate [])))
       (open_all (sample_host undecided_settings
                    (fun _ => Returned (mkContentAggregate [])))
          (construct undecided_settings initial_world)
          [sample_page; sample_page; sample_page])
       3 (Some yesAnswer))
  = 3.
Proof.
  refine (proj1 (proj2
            (each_yes_registers_a_provider
               (sample_host undecided_settings
                  (fun _ => Returned (mkContentAggregate [])))
               undecided_settings initial_world
               [sample_page; sample_page; sample_page] eq_refl _))).
  intros d [<- | [<- | [<- | []]]]; discriminate.
Defined.

(** X18.  In a session started undecided, whatever the events: every
    registered provider is paid for by an answered message (providers plus
    messages on screen never exceed the messages shown), at most one
    message is shown per document opened, and every message on screen
    belongs to a document for which a configuration file is located. *)
Theorem messages_account_for_providers (h : Host) (st : Settings) (w : world)
  (es : list event) :
  antoraSupportSetting st = VUndefined ->
  providers (run h (construct st w) es)
  + length (pending (run h (construct st w) es))
  <= prompts (run h (construct st w) es) /\
  prompts (run h (construct st w) es) <= length (filter is_open es) /\
  Forall (fun d => located h d <> None) (pending (run h (construct st w) es)).
Proof.
  intros U. rewrite (GateFacts.construct_undecided _ _ U).
  assert (G : forall es s,
             providers s + length (pending s) <= prompts s /\
             Forall (fun d => located h d <> None) (pending s) ->
             (providers (run h s es) + length (pending (run h s es))
              <= prompts (run h s es) /\
              Forall (fun d => located h d <> None) (pending (run h s es))) /\
             prompts (run h s es) <= prompts s + length (filter is_open es)).
  { clear. intros es. induction es as [|e es IH]; intros s I; simpl.
    - split; [exact I | lia].
    - destruct (IH (step h s e) (GateMore.step_accounts h s e I)) as [I' B].
      split; [exact I'|].
      pose proof (GateMore.step_prompts h s e) as P.
      destruct (is_open e); simpl; lia. }
  destruct (G es (mkSession st true 0 0 [] w)) as [[A B] C].
  - simpl. split; [lia | constructor].
  - simpl in C. auto.
Qed.

Lemma messages_account_for_providers_witness :
  providers
    (run (sample_host undecided_settings (fun _ => Returned (mkContentAggregate [])))
       (construct undecided_settings initial_world)
       [OpenTextDocument sample_page; UserAnswers 0 (Some yesAnswer);
        UserAnswers 0 (Some yesAnswer)])
  + length
      (pending
         (run (sample_host undecided_settings
                 (fun _ => Returned (mkContentAggregate [])))
            (construct undecided_settings initial_world)
            [OpenTextDocument sample_page; UserAnswers 0 (Some yesAnswer);
             UserAnswers 0 (Some yesAnswer)]))
  <= prompts
       (run (sample_host undecided_settings
               (fun _ => Returned (mkContentAggregate [])))
          (construct undecided_settings initial_world)
          [OpenTextDocument sample_page; UserAnswers 0 (Some yesAnswer);
           UserAnswers 0 (Some yesAnswer)]).
Proof.
  exact (proj1 (messages_account_for_providers
                  (sample_host undecided_settings
                     (fun _ => Returned (mkContentAggregate [])))
                  undecided_settings initial_world
                  [OpenTextDocument sample_page; UserAnswers 0 (Some yesAnswer);
                   UserAnswers 0 (Some yesAnswer)] eq_refl)).
Defined.

(** X19.  The last answer wins.  With two messages on screen, "Yes" to
    the first and "No, thanks" to the second leave a registered completion
    provider and a setting persisted as [false]: from then on
    [getContentCatalog] returns [undefined] for every document. *)
Theorem second_answer_overrides (h : Host) (s : Session) (d1 d2 : Uri)
  (rest : list Uri) :
  pending s = d1 :: d2 :: rest ->
  forall s',
    s' = on_answer 0 (Some noAnswer) (on_answer 0 (Some yesAnswer) s) ->
    providers s' = S (providers s) /\
    persisted s' = mkSettings (VBool true) (VBool false) /\
    pending s' = rest /\
    (forall doc w0,
       getContentCatalog (host_of h s') doc w0 = (Returned None, w0)).
Proof.
  intros P s' ->. rewrite (GateMore.on_answer_yes s d1 (d2 :: rest) P).
  unfold on_answer. simpl.
  split; [reflexivity|]. split; [reflexivity|]. split; [reflexivity|].
  intros doc w0. apply GateMore.getContentCatalog_off. right. discriminate.
Qed.

Lemma second_answer_overrides_witness :
  persisted
    (on_answer 0 (Some noAnswer)
       (on_answer 0 (Some yesAnswer)
          (open_all (sample_host undecided_settings
                       (fun _ => Returned (mkContentAggregate [])))
             (construct undecided_settings initial_world)
             [sample_page; sample_page])))
  = mkSettings (VBool true) (VBool false).
Proof.
  exact (proj1 (proj2
           (second_answer_overrides
              (sample_host undecided_settings
                 (fun _ => Returned (mkContentAggregate [])))
              (open_all (sample_host undecided_settings
                           (fun _ => Returned (mkContentAggregate [])))
                 (construct undecided_settings initial_world)
                 [sample_page; sample_page])
              sample_page sample_page [] eq_refl _ eq_refl))).
Defined.
